(** * nipype.interfaces.dipy.tensors: the DKI, DTI and TensorMode adapters

    A shallow embedding of [nipype/interfaces/dipy/tensors.py].  The three
    adapter classes are glue code around nibabel (image input and output),
    numpy (array operations) and dipy (model fitting); those libraries are
    kept abstract in a record of operations, and the adapters' own control
    flow, their calls, their log messages and their output dictionaries are
    modelled statement by statement. *)

From Stdlib Require Import String Ascii List ZArith Bool Lia.
From stdpp Require Import base option gmap strings.

Import ListNotations.
Open Scope string_scope.

(** ** Python strings *)

Module PyStr.

(** [sub in s] of Python, as a boolean. *)
Fixpoint contains (sub s : string) : bool :=
  String.prefix sub s ||
  match s with
  | EmptyString => false
  | String _ s' => contains sub s'
  end.

(** A replacement field that is being read by [format_from]. *)
Definition lookup_field (field : string) (pos : nat)
           (args : list string) (kwargs : list (string * string))
  : option string :=
  match field with
  | EmptyString => nth_error args pos
  | _ => snd <$> List.find (fun kv => String.eqb (fst kv) field) kwargs
  end.

(** [template.format( *args, **kwargs)] restricted to what tensors.py
    uses: literal text, automatically numbered fields [{}] and named
    fields [{name}], every argument being a string already.  [None] stands
    for the IndexError, KeyError or ValueError that Python raises. *)
Fixpoint format_from (template : string) (field : option string)
         (pos : nat) (args : list string) (kwargs : list (string * string))
  : option string :=
  match template with
  | EmptyString =>
      match field with
      | None => Some EmptyString
      | Some _ => None
      end
  | String c rest =>
      match field with
      | None =>
          if Ascii.eqb c "{"%char
          then format_from rest (Some EmptyString) pos args kwargs
          else String c <$> format_from rest None pos args kwargs
      | Some f =>
          if Ascii.eqb c "}"%char
          then
            match lookup_field f pos args kwargs with
            | Some v =>
                String.append v <$>
                  format_from rest None
                    (match f with EmptyString => S pos | _ => pos end)
                    args kwargs
            | None => None
            end
          else
            format_from rest (Some (String.append f (String c EmptyString)))
              pos args kwargs
      end
  end.

Definition format (template : string) (args : list string)
           (kwargs : list (string * string)) : option string :=
  format_from template None 0 args kwargs.

End PyStr.


(** ** The classes of tensors.py *)

Inductive adapter : Type := DKI | DTI | TensorMode.

Inductive spec_class : Type :=
| DKIInputSpec | DKIOutputSpec
| DTIInputSpec | DTIOutputSpec
| TensorModeInputSpec | TensorModeOutputSpec.

(** The traits a specification class declares in its own body, in source
    order. *)
Definition declared_traits (c : spec_class) : list string :=
  match c with
  | DKIInputSpec => ["mask_file"]
  | DKIOutputSpec =>
      ["out_file"; "fa_file"; "md_file"; "rd_file"; "ad_file";
       "mk_file"; "ak_file"; "rk_file"]
  | DTIInputSpec => ["mask_file"]
  | DTIOutputSpec => ["out_file"; "fa_file"; "md_file"; "rd_file"; "ad_file"]
  | TensorModeInputSpec => ["mask_file"]
  | TensorModeOutputSpec => ["out_file"]
  end.

(** What a name assigned in a class body is bound to.  [Inherited] wraps a
    value found in the base class [DipyDiffusionInterface], which lives in
    another module and therefore cannot be one of the classes above. *)
Inductive class_value (B : Type) : Type :=
| Docstring
| Method
| SpecClass (c : spec_class)
| Inherited (b : B).
Arguments Docstring {B}.
Arguments Method {B}.
Arguments SpecClass {B} c.
Arguments Inherited {B} b.

(** The names bound by the body of each adapter class, in source order. *)
Definition class_body {B : Type} (a : adapter) : list (string * class_value B) :=
  match a with
  | DKI =>
      [("__doc__", Docstring);
       ("_run_interface", Method);
       ("_list_outputs", Method)]
  | DTI =>
      [("__doc__", Docstring);
       ("input_spec", SpecClass DTIInputSpec);
       ("output_spec", SpecClass DTIOutputSpec);
       ("_run_interface", Method);
       ("_list_outputs", Method)]
  | TensorMode =>
      [("__doc__", Docstring);
       ("input_spec", SpecClass TensorModeInputSpec);
       ("output_spec", SpecClass TensorModeOutputSpec);
       ("_run_interface", Method);
       ("_list_outputs", Method)]
  end.

Definition own_attr {B : Type} (a : adapter) (name : string)
  : option (class_value B) :=
  snd <$> List.find (fun kv => String.eqb (fst kv) name) (class_body a).

(** Attribute lookup on the class: its own body first, then the base
    class. *)
Definition class_getattr {B : Type} (base : string -> option B)
           (a : adapter) (name : string) : option (class_value B) :=
  match own_attr a name with
  | Some v => Some v
  | None => Inherited <$> base name
  end.

(** The specification classes that tensors.py defines, by name, for each
    adapter. *)
Definition expected_input_spec (a : adapter) : spec_class :=
  match a with
  | DKI => DKIInputSpec
  | DTI => DTIInputSpec
  | TensorMode => TensorModeInputSpec
  end.

Definition expected_output_spec (a : adapter) : spec_class :=
  match a with
  | DKI => DKIOutputSpec
  | DTI => DTIOutputSpec
  | TensorMode => TensorModeOutputSpec
  end.

(** ** Inputs and trait values *)

(** Modelled from the spec: [DipyBaseInterfaceInputSpec] is declared in
    [nipype/interfaces/dipy/base.py], which is not part of the sources; the
    image volume, the b-vectors and the b-values are the file parameters the
    specification layer declares and the doctests of tensors.py set. *)
Record DipyBaseInterfaceInputSpec : Type := {
  in_file : string;
  in_bvec : string;
  in_bval : string
}.

(** [self.inputs] as [_run_interface] reads it: the inherited traits and
    [mask_file], where [None] is the trait being undefined
    ([isdefined] is false).  Whether an adapter's inputs have the trait at
    all is decided by the class's [input_spec]. *)
Record InputSpec : Type := {
  base_inputs : DipyBaseInterfaceInputSpec;
  mask_file : option string
}.

Inductive trait_value : Type :=
| Undefined
| Filename (path : string).

(** Modelled from the spec: [TraitedSpec.get] is not part of the sources; a
    freshly created output specification reports every declared slot, each
    of them unset. *)
Definition fresh_traits (names : list string) : gmap string trait_value :=
  list_to_map ((fun n => (n, Undefined)) <$> names).

(** ** Exceptions *)

Inductive exn : Type :=
| AttributeError (name : string)
| TypeError (msg : string)
| FormatError (template : string)
| LibraryError (operation : string).

(** ** Images, fitted models and the external libraries *)

Inductive model : Type := TensorModel | DiffusionKurtosisModel.

Section Adapters.

(** numpy arrays, affines, gradient tables and the workflow engine's
    runtime object are owned by other libraries. *)
Variables ndarray affine_t gtab runtime : Type.

(** An image object: what [nb.Nifti1Image(data, affine)] and dipy's
    [nifti1_symmat(lower_triangular, affine)] construct, and what
    [nb.load] returns. *)
Inductive image : Type :=
| Nifti1Image (data : ndarray) (affine : affine_t)
| nifti1_symmat (lower_triangular : ndarray) (affine : affine_t).

Definition get_data (img : image) : ndarray :=
  match img with
  | Nifti1Image d _ => d
  | nifti1_symmat d _ => d
  end.

(** [img.affine]; [img.get_affine()] is nibabel's older spelling of it. *)
Definition image_affine (img : image) : affine_t :=
  match img with
  | Nifti1Image _ a => a
  | nifti1_symmat _ a => a
  end.

Definition get_affine (img : image) : affine_t := image_affine img.

(** A fitted model: the result of [lower_triangular()] and the named
    metric attributes it exposes. *)
Record Fit : Type := {
  lower_triangular : ndarray;
  fit_attr : string -> option ndarray
}.

(** Everything tensors.py calls and does not define.  [None] stands for
    the callee raising.
    - [nb_load]: [nb.load(path)];
    - [_get_gradient_table], [_gen_filename]: the methods inherited from
      [DipyDiffusionInterface], as functions of the inherited inputs;
    - [model_fit]: [Model(gtab).fit(data, mask)];
    - [index_last_axis a k]: numpy's [a[..., k]]; [greater a t]: [a > t];
      [astype a dtype]: [a.astype(dtype)];
    - [base_attr]: the class attributes of [DipyDiffusionInterface], by
      name; [base_outputs]: what [self._outputs().get()] gives a class that
      binds no [output_spec] of its own. *)
Record Library : Type := {
  nb_load : string -> option image;
  _get_gradient_table : DipyBaseInterfaceInputSpec -> option gtab;
  _gen_filename : DipyBaseInterfaceInputSpec -> string -> string;
  model_fit : model -> gtab -> ndarray -> option ndarray -> option Fit;
  index_last_axis : ndarray -> Z -> option ndarray;
  greater : ndarray -> Z -> ndarray;
  astype : ndarray -> string -> ndarray;
  base_attr : string -> option string;
  base_outputs : option (gmap string trait_value)
}.

(** ** Effects *)

(** What a run does to the outside world: files read with [nb.load], calls
    of the model fit with their arguments, images written ([nb.save] and
    [to_filename]) and messages given to [IFLOGGER.info].  Writing and
    logging are taken to succeed. *)
Inductive event : Type :=
| Load (path : string)
| FitCall (m : model) (g : gtab) (data : ndarray) (mask : option ndarray)
| Save (img : image) (path : string)
| Info (msg : string).

(** A computation: the effects performed so far, in order, and either the
    exception that ended it or its value. *)
Definition M (A : Type) : Type := (list event * (exn + A))%type.

Definition ret {A : Type} (a : A) : M A := ([], inr a).

Definition raise {A : Type} (e : exn) : M A := ([], inl e).

Definition bind {A B : Type} (m : M A) (k : A -> M B) : M B :=
  match m with
  | (t, inl e) => (t, inl e)
  | (t, inr a) => let '(t', r) := k a in ((t ++ t')%list, r)
  end.

Definition emit (e : event) : M unit := ([e], inr tt).

Definition lift {A : Type} (e : exn) (o : option A) : M A :=
  match o with
  | Some a => ret a
  | None => raise e
  end.

Definition trace {A : Type} (m : M A) : list event := fst m.
Definition outcome {A : Type} (m : M A) : exn + A := snd m.

Local Notation "'let*' x ':=' m 'in' k" := (bind m (fun x => k))
  (at level 10, x name, m at level 100, k at level 200).
Local Notation "m ;;; k" := (bind m (fun _ => k))
  (at level 90, right associativity).

(** [for x in xs: body], with the variables the body assigns as [s]. *)
Fixpoint for_in {A S : Type} (xs : list A) (body : A -> S -> M S) (s : S)
  : M S :=
  match xs with
  | [] => ret s
  | x :: xs' => let* s' := body x s in for_in xs' body s'
  end.

Variable L : Library.

(** *** Calls into the libraries *)

Definition load (path : string) : M image :=
  emit (Load path) ;;; lift (LibraryError "nibabel.load") (nb_load L path).

Definition save (img : image) (path : string) : M unit :=
  emit (Save img path).

Definition info (msg : string) : M unit := emit (Info msg).

Definition gradient_table (self : InputSpec) : M gtab :=
  lift (LibraryError "_get_gradient_table")
    (_get_gradient_table L (base_inputs self)).

Definition gen_filename (self : InputSpec) (name : string) : string :=
  _gen_filename L (base_inputs self) name.

Definition fit (m : model) (g : gtab) (data : ndarray)
           (mask : option ndarray) : M Fit :=
  emit (FitCall m g data mask) ;;;
  lift (LibraryError "fit") (model_fit L m g data mask).

(** [obj.name] on a fitted model. *)
Definition attribute (f : Fit) (name : string) : M ndarray :=
  lift (AttributeError name) (fit_attr f name).

Inductive pyobj : Type :=
| PyFit (f : Fit)
| PyArray (a : ndarray)
| PyString (s : string).

(** The builtin [getattr] on the argument shapes tensors.py can give it:
    a fitted model and a name, or too few arguments. *)
Definition builtin_getattr (args : list pyobj) : M ndarray :=
  match args with
  | [] => raise (TypeError "getattr expected at least 2 arguments, got 0")
  | [_] => raise (TypeError "getattr expected at least 2 arguments, got 1")
  | [PyFit f; PyString name] => attribute f name
  | _ => raise (TypeError "getattr(): unsupported arguments")
  end.

Definition str_format (template : string) (args : list string)
           (kwargs : list (string * string)) : M string :=
  lift (FormatError template) (PyStr.format template args kwargs).

(** [self.inputs.mask_file] on an instance of adapter [a].  [self.inputs]
    is an instance of the class's [input_spec].  Each input specification
    of this module declares the trait, and reading it gives its value; the
    [DipyBaseInterfaceInputSpec] that a class inherits when it binds no
    [input_spec] of its own has no such trait, and reading it raises. *)
Definition inputs_mask_file (a : adapter) (self : InputSpec)
  : M (option string) :=
  match class_getattr (base_attr L) a "input_spec" with
  | Some (SpecClass c) =>
      if existsb (String.eqb "mask_file") (declared_traits c)
      then ret (mask_file self)
      else raise (AttributeError "mask_file")
  | _ => raise (AttributeError "mask_file")
  end.

(** [mask = None; if isdefined(self.inputs.mask_file): mask =
    nb.load(self.inputs.mask_file).get_data()], where the trait exists
    (DTI). *)
Definition load_mask (self : InputSpec) : M (option ndarray) :=
  match mask_file self with
  | Some path => let* m := load path in ret (Some (get_data m))
  | None => ret None
  end.

(** *** DKI *)

Definition DKI_metrics : list string :=
  ["fa"; "md"; "rd"; "ad"; "mk"; "ak"; "rk"].

(** The body of the loop of [DKI._run_interface].  Its first statement is
    [data = getattr(kurtosis_fit.metric).astype('float32')]: the attribute
    named [metric] is read from the fitted model, and [getattr] is called
    with that single argument. *)
Definition DKI_metric_body (self : InputSpec) (kurtosis_fit : Fit)
           (affine : affine_t) (metric : string) (_ : unit) : M unit :=
  let* arg := attribute kurtosis_fit "metric" in
  let* value := builtin_getattr [PyArray arg] in
  let data := astype L value "float32" in
  let out_name := gen_filename self metric in
  save (Nifti1Image data affine) out_name ;;;
  let* msg := str_format "DKI {metric} image saved as {i}" []
                [("i", out_name); ("metric", metric)] in
  info msg.

(** Class DKI binds no [input_spec], so the test of line 54 reads a trait
    its [self.inputs] does not have. *)
Definition DKI_run_interface (self : InputSpec) (rt : runtime) : M runtime :=
  let* gtab := gradient_table self in
  let* img := load (in_file (base_inputs self)) in
  let data := get_data img in
  let affine := image_affine img in
  let* mask_path := inputs_mask_file DKI self in
  let* mask :=
    match mask_path with
    | Some path => let* m := load path in ret (Some (get_data m))
    | None => ret None
    end in
  let* kurtosis_fit := fit DiffusionKurtosisModel gtab data mask in
  let img := nifti1_symmat (lower_triangular kurtosis_fit) affine in
  let out_file := gen_filename self "dki" in
  save img out_file ;;;
  info "DKI parameters image saved as {i}.format(i=out_file)" ;;;
  for_in DKI_metrics (DKI_metric_body self kurtosis_fit affine) tt ;;;
  ret rt.

(** [self._outputs().get()]: a fresh instance of the class's
    [output_spec] when the class binds one of the specifications of this
    module, and whatever the base class provides otherwise ([None] when
    that raises). *)
Definition outputs_get (a : adapter) : M (gmap string trait_value) :=
  match class_getattr (base_attr L) a "output_spec" with
  | Some (SpecClass c) => ret (fresh_traits (declared_traits c))
  | _ => lift (AttributeError "get") (base_outputs L)
  end.

Definition DKI_list_outputs (self : InputSpec)
  : M (gmap string trait_value) :=
  let* outputs := outputs_get DKI in
  let outputs := <["out_file" := Filename (gen_filename self "dki")]> outputs in
  let* outputs :=
    for_in DKI_metrics
      (fun metric outputs =>
         let* key := str_format "{}" [metric] [] in
         ret (<[key := Filename (gen_filename self metric)]> outputs))
      outputs in
  ret outputs.

(** *** DTI *)

Definition DTI_metrics : list string := ["fa"; "md"; "rd"; "ad"].

Definition DTI_metric_body (self : InputSpec) (ten_fit : Fit)
           (affine : affine_t) (metric : string) (_ : unit) : M unit :=
  let* value := builtin_getattr [PyFit ten_fit; PyString metric] in
  let data := astype L value "float32" in
  let out_name := gen_filename self metric in
  save (Nifti1Image data affine) out_name ;;;
  let* msg := str_format "DTI {metric} image saved as {i}" []
                [("i", out_name); ("metric", metric)] in
  info msg.

Definition DTI_run_interface (self : InputSpec) (rt : runtime) : M runtime :=
  let* gtab := gradient_table self in
  let* img := load (in_file (base_inputs self)) in
  let data := get_data img in
  let affine := image_affine img in
  let* mask := load_mask self in
  let* ten_fit := fit TensorModel gtab data mask in
  let img := nifti1_symmat (lower_triangular ten_fit) affine in
  let out_file := gen_filename self "dti" in
  save img out_file ;;;
  let* msg := str_format "DTI parameters image saved as {i}" []
                [("i", out_file)] in
  info msg ;;;
  for_in DTI_metrics (DTI_metric_body self ten_fit affine) tt ;;;
  ret rt.

Definition DTI_list_outputs (self : InputSpec)
  : M (gmap string trait_value) :=
  let* outputs := outputs_get DTI in
  let outputs := <["out_file" := Filename (gen_filename self "dti")]> outputs in
  let* outputs :=
    for_in DTI_metrics
      (fun metric outputs =>
         let* key := str_format "{}_file" [metric] [] in
         ret (<[key := Filename (gen_filename self metric)]> outputs))
      outputs in
  ret outputs.

(** *** TensorMode *)

Definition TensorMode_run_interface (self : InputSpec) (rt : runtime)
  : M runtime :=
  let* img := load (in_file (base_inputs self)) in
  let data := get_data img in
  let affine := get_affine img in
  let* gtab := gradient_table self in
  let* first := lift (LibraryError "numpy index")
                  (index_last_axis L data 0) in
  let mask := greater L first 50 in
  let* tenfit := fit TensorModel gtab data (Some mask) in
  let* mode_data := attribute tenfit "mode" in
  let img := Nifti1Image mode_data affine in
  let out_file := gen_filename self "mode" in
  save img out_file ;;;
  let* msg := str_format "Tensor mode image saved as {i}" []
                [("i", out_file)] in
  info msg ;;;
  ret rt.

Definition TensorMode_list_outputs (self : InputSpec)
  : M (gmap string trait_value) :=
  let* outputs := outputs_get TensorMode in
  let outputs := <["out_file" := Filename (gen_filename self "mode")]> outputs in
  ret outputs.

(** *** The adapters side by side *)

Definition run_interface (a : adapter) : InputSpec -> runtime -> M runtime :=
  match a with
  | DKI => DKI_run_interface
  | DTI => DTI_run_interface
  | TensorMode => TensorMode_run_interface
  end.

Definition list_outputs (a : adapter)
  : InputSpec -> M (gmap string trait_value) :=
  match a with
  | DKI => DKI_list_outputs
  | DTI => DTI_list_outputs
  | TensorMode => TensorMode_list_outputs
  end.

End Adapters.

Arguments Nifti1Image {ndarray affine_t} data affine.
Arguments nifti1_symmat {ndarray affine_t} lower_triangular affine.
Arguments Load {ndarray affine_t gtab} path.
Arguments FitCall {ndarray affine_t gtab} m g data mask.
Arguments Save {ndarray affine_t gtab} img path.
Arguments Info {ndarray affine_t gtab} msg.
Arguments trace {ndarray affine_t gtab A} m.
Arguments outcome {ndarray affine_t gtab A} m.
Arguments get_data {ndarray affine_t} img.
Arguments image_affine {ndarray affine_t} img.
Arguments get_affine {ndarray affine_t} img.
Arguments lower_triangular {ndarray} f.
Arguments fit_attr {ndarray} f name.
Arguments nb_load {ndarray affine_t gtab} l path.
Arguments _get_gradient_table {ndarray affine_t gtab} l b.
Arguments _gen_filename {ndarray affine_t gtab} l b name.
Arguments model_fit {ndarray affine_t gtab} l m g data mask.
Arguments index_last_axis {ndarray affine_t gtab} l a k.
Arguments greater {ndarray affine_t gtab} l a t.
Arguments astype {ndarray affine_t gtab} l a dtype.
Arguments base_attr {ndarray affine_t gtab} l name.
Arguments base_outputs {ndarray affine_t gtab} l.
Arguments ret {ndarray affine_t gtab A} a.
Arguments raise {ndarray affine_t gtab A} e.
Arguments bind {ndarray affine_t gtab A B} m k.
Arguments emit {ndarray affine_t gtab} e.
Arguments lift {ndarray affine_t gtab A} e o.
Arguments for_in {ndarray affine_t gtab A S} xs body s.
Arguments load {ndarray affine_t gtab} L path.
Arguments save {ndarray affine_t gtab} img path.
Arguments info {ndarray affine_t gtab} msg.
Arguments gradient_table {ndarray affine_t gtab} L self.
Arguments fit {ndarray affine_t gtab} L m g data mask.
Arguments attribute {ndarray affine_t gtab} f name.
Arguments builtin_getattr {ndarray affine_t gtab} args.
Arguments str_format {ndarray affine_t gtab} template args kwargs.
Arguments load_mask {ndarray affine_t gtab} L self.
Arguments inputs_mask_file {ndarray affine_t gtab} L a self.
Arguments DKI_metric_body {ndarray affine_t gtab} L self kurtosis_fit affine metric _.
Arguments DTI_metric_body {ndarray affine_t gtab} L self ten_fit affine metric _.
Arguments DKI_run_interface {ndarray affine_t gtab runtime} L self rt.
Arguments DTI_run_interface {ndarray affine_t gtab runtime} L self rt.
Arguments TensorMode_run_interface {ndarray affine_t gtab runtime} L self rt.
Arguments run_interface {ndarray affine_t gtab runtime} L a self rt.
Arguments DKI_list_outputs {ndarray affine_t gtab} L self.
Arguments DTI_list_outputs {ndarray affine_t gtab} L self.
Arguments TensorMode_list_outputs {ndarray affine_t gtab} L self.
Arguments list_outputs {ndarray affine_t gtab} L a self.
Arguments outputs_get {ndarray affine_t gtab} L a.
Arguments gen_filename {ndarray affine_t gtab} L self name.

(** ** A small concrete world

    Arrays with integer voxels, enough to run the adapters on. *)

Module Sample.

Inductive volume : Type :=
| Vol4 (voxels : list (list Z))
| Vol3 (voxels : list Z)
| Mask3 (voxels : list bool)
| Cast (dtype : string) (v : volume).

(** [a[..., k]] for a 4D volume stored voxel by voxel. *)
Definition sample_index (a : volume) (k : Z) : option volume :=
  match a with
  | Vol4 vs => Vol3 <$> mapM (fun v => nth_error v (Z.to_nat k)) vs
  | _ => None
  end.

(** [a > t], voxel by voxel. *)
Definition sample_greater (a : volume) (t : Z) : volume :=
  match a with
  | Vol3 vs => Mask3 ((fun v => Z.ltb t v) <$> vs)
  | Vol4 vs => Vol4 vs
  | other => other
  end.

Definition diffusion : volume := Vol4 [[100; 3]; [20; 7]; [60; 1]]%Z.
Definition white_matter : volume := Vol3 [1; 1; 0]%Z.

Definition sample_load (path : string) : option (image volume Z) :=
  if String.eqb path "diffusion.nii" then Some (Nifti1Image diffusion 7%Z)
  else if String.eqb path "mask.nii" then Some (Nifti1Image white_matter 7%Z)
  else None.

Definition attributes_of (m : model) : list string :=
  match m with
  | TensorModel => ["fa"; "md"; "rd"; "ad"; "mode"]
  | DiffusionKurtosisModel => ["fa"; "md"; "rd"; "ad"; "mk"; "ak"; "rk"]
  end.

Definition sample_fit (m : model) (g : string * string) (data : volume)
           (mask : option volume) : option (Fit volume) :=
  Some {| lower_triangular := Vol4 [[1; 0; 1; 0; 0; 1]]%Z;
          fit_attr := fun name =>
            if existsb (String.eqb name) (attributes_of m)
            then Some (Vol3 [Z.of_nat (String.length name)])
            else None |}.

Definition sample_filename (b : DipyBaseInterfaceInputSpec) (name : string)
  : string :=
  "/data/" +:+ name +:+ "_" +:+ in_file b.

Definition library (base_outputs : option (gmap string trait_value))
  : Library volume Z (string * string) :=
  {| nb_load := sample_load;
     _get_gradient_table := fun b => Some (in_bval b, in_bvec b);
     _gen_filename := sample_filename;
     model_fit := sample_fit;
     index_last_axis := sample_index;
     greater := sample_greater;
     astype := fun a dtype => Cast dtype a;
     base_attr := fun name =>
       if String.eqb name "input_spec"
       then Some "DipyBaseInterfaceInputSpec" else None;
     base_outputs := base_outputs |}.

Definition inputs (mask : option string) : InputSpec :=
  {| base_inputs := {| in_file := "diffusion.nii";
                       in_bvec := "bvecs";
                       in_bval := "bvals" |};
     mask_file := mask |}.

(** A fit whose result lacks the attribute [missing]. *)
Definition sample_fit_lacking (missing : string) (m : model)
           (g : string * string) (data : volume) (mask : option volume)
  : option (Fit volume) :=
  (fun f => {| lower_triangular := lower_triangular f;
               fit_attr := fun name =>
                 if String.eqb name missing then None else fit_attr f name |})
    <$> sample_fit m g data mask.

Definition library_lacking (missing : string)
  : Library volume Z (string * string) :=
  {| nb_load := sample_load;
     _get_gradient_table := fun b => Some (in_bval b, in_bvec b);
     _gen_filename := sample_filename;
     model_fit := sample_fit_lacking missing;
     index_last_axis := sample_index;
     greater := sample_greater;
     astype := fun a dtype => Cast dtype a;
     base_attr := fun name =>
       if String.eqb name "input_spec"
       then Some "DipyBaseInterfaceInputSpec" else None;
     base_outputs := None |}.

End Sample.

(** ** Observations on a trace *)

Section Observations.

Context {ndarray affine_t gtab : Type}.

Local Abbreviation event := (event ndarray affine_t gtab).

(** The files written, in order. *)
Definition written_files (t : list event) : list string :=
  flat_map (fun ev => match ev with Save _ path => [path] | _ => [] end) t.

(** The messages given to [IFLOGGER.info], in order. *)
Definition log_messages (t : list event) : list string :=
  flat_map (fun ev => match ev with Info msg => [msg] | _ => [] end) t.

(** Is [path] named in one of the messages? *)
Definition reported (path : string) (msgs : list string) : bool :=
  existsb (PyStr.contains path) msgs.

(** Is every file written in [t] named in a message logged in [t]? *)
Definition all_reported (t : list event) : bool :=
  forallb (fun path => reported path (log_messages t)) (written_files t).

(** Does every message logged in [t] name a file written before it, in
    [t] or among the files [seen] already? *)
Fixpoint messages_follow_writes (seen : list string) (t : list event)
  : bool :=
  match t with
  | [] => true
  | Save _ path :: t' => messages_follow_writes (path :: seen) t'
  | Info msg :: t' =>
      existsb (fun path => PyStr.contains path msg) seen
      && messages_follow_writes seen t'
  | _ :: t' => messages_follow_writes seen t'
  end.

End Observations.

(** The model each adapter fits and the metrics its loop walks through. *)
Definition model_of (a : adapter) : model :=
  match a with
  | DKI => DiffusionKurtosisModel
  | DTI => TensorModel
  | TensorMode => TensorModel
  end.

Definition metrics_of (a : adapter) : list string :=
  match a with
  | DKI => DKI_metrics
  | DTI => DTI_metrics
  | TensorMode => []
  end.

(** The name each adapter gives [_gen_filename] for its first output. *)
Definition main_output_name (a : adapter) : string :=
  match a with
  | DKI => "dki"
  | DTI => "dti"
  | TensorMode => "mode"
  end.

(** ** What the adapters are expected to do *)

Section Expectations.

Context {ndarray affine_t gtab runtime : Type}.
Variable L : Library ndarray affine_t gtab.

(** What the sentence on the optional mask asks of an adapter: with
    [mask_file] set, a fit is only ever called after that file was loaded,
    and with the loaded volume as its mask. *)
Definition mask_file_honoured (a : adapter) (self : InputSpec) (rt : runtime)
  : Prop :=
  forall path m g d mask,
    mask_file self = Some path ->
    In (FitCall m g d mask) (trace (run_interface L a self rt)) ->
    In (Load path) (trace (run_interface L a self rt)) /\
    exists img, nb_load L path = Some img /\ mask = Some (get_data img).

(** What an adapter's [_list_outputs] is asked to do: return a dictionary
    in which every slot declared by the adapter's output specification holds
    a file name. *)
Definition every_slot_named (a : adapter) (self : InputSpec) : Prop :=
  exists outputs,
    outcome (list_outputs L a self) = inr outputs /\
    forall slot, In slot (declared_traits (expected_output_spec a)) ->
                 exists path, outputs !! slot = Some (Filename path).

(** What the naming sentence asks of an adapter: slot by slot, in the order
    of declaration, [_list_outputs] names the files [_run_interface]
    wrote. *)
Definition outputs_name_written_files (a : adapter) (self : InputSpec)
           (rt : runtime) : Prop :=
  exists outputs,
    outcome (list_outputs L a self) = inr outputs /\
    (fun slot => outputs !! slot) <$> declared_traits (expected_output_spec a)
    = (fun path => Some (Filename path))
        <$> written_files (trace (run_interface L a self rt)).

End Expectations.

Arguments mask_file_honoured {ndarray affine_t gtab runtime} L a self rt.
Arguments every_slot_named {ndarray affine_t gtab} L a self.
Arguments outputs_name_written_files {ndarray affine_t gtab runtime} L a self rt.

(** * Properties *)

(** ** Python strings *)

Example format_named :
  PyStr.format "DTI {metric} image saved as {i}" []
    [("i", "/d/x_fa.nii"); ("metric", "fa")]
  = Some "DTI fa image saved as /d/x_fa.nii".
Proof. reflexivity. Qed.

Example format_positional :
  PyStr.format "{}_file" ["fa"] [] = Some "fa_file".
Proof. reflexivity. Qed.

Example format_missing_key :
  PyStr.format "saved as {i}" [] [] = None.
Proof. reflexivity. Qed.

Example contains_inside :
  PyStr.contains "x_fa" "saved as /d/x_fa.nii" = true.
Proof. reflexivity. Qed.

Lemma prefix_append (sub post : string) :
  String.prefix sub (String.append sub post) = true.
Proof.
  induction sub as [|c sub IH]; simpl.
  - destruct post; reflexivity.
  - destruct (ascii_dec c c) as [_|Hc]; [exact IH | contradiction].
Qed.

Lemma contains_unfold (sub s : string) :
  PyStr.contains sub s =
  String.prefix sub s ||
  match s with
  | EmptyString => false
  | String _ s' => PyStr.contains sub s'
  end.
Proof. destruct s; reflexivity. Qed.

Lemma contains_append (pre sub post : string) :
  PyStr.contains sub (String.append pre (String.append sub post)) = true.
Proof.
  induction pre as [|c pre IH].
  - change (String.append EmptyString (String.append sub post))
      with (String.append sub post).
    rewrite contains_unfold, prefix_append. reflexivity.
  - simpl. rewrite IH. apply orb_true_r.
Qed.

(** ** The effect monad *)

Section Monad_facts.

Context {ndarray affine_t gtab : Type}.

Local Abbreviation M := (M ndarray affine_t gtab).
Local Abbreviation event := (event ndarray affine_t gtab).

Lemma trace_bind {A B : Type} (m : M A) (k : A -> M B) :
  trace (bind m k) =
  (trace m ++ match outcome m with
              | inr a => trace (k a)
              | inl _ => []
              end)%list.
Proof.
  destruct m as [t [e|a]]; simpl.
  - symmetry. apply app_nil_r.
  - destruct (k a) as [t' r]. reflexivity.
Qed.

Lemma outcome_bind {A B : Type} (m : M A) (k : A -> M B) :
  outcome (bind m k) =
  match outcome m with
  | inr a => outcome (k a)
  | inl e => inl e
  end.
Proof.
  destruct m as [t [e|a]]; simpl; [reflexivity|].
  destruct (k a) as [t' r]. reflexivity.
Qed.

Lemma in_trace_bind {A B : Type} (m : M A) (k : A -> M B) (ev : event) :
  In ev (trace (bind m k)) <->
  In ev (trace m) \/ exists a, outcome m = inr a /\ In ev (trace (k a)).
Proof.
  rewrite trace_bind, in_app_iff. split; intros [H|H]; auto.
  - destruct (outcome m) as [e|a]; [destruct H|]. right. eauto.
  - destruct H as (a & Ha & H). rewrite Ha. auto.
Qed.

Lemma outcome_bind_inr {A B : Type} (m : M A) (k : A -> M B) (b : B) :
  outcome (bind m k) = inr b <->
  exists a, outcome m = inr a /\ outcome (k a) = inr b.
Proof.
  rewrite outcome_bind. destruct (outcome m) as [e|a]; split.
  - discriminate.
  - intros (a & Ha & _). discriminate.
  - eauto.
  - intros (a' & Ha & H). congruence.
Qed.

Lemma outcome_bind_inl {A B : Type} (m : M A) (k : A -> M B) :
  (forall a, exists e, outcome (k a) = inl e) ->
  exists e, outcome (bind m k) = inl e.
Proof.
  intros Hk. rewrite outcome_bind. destruct (outcome m) as [e|a]; eauto.
Qed.

Lemma outcome_lift_inr {A : Type} (e : exn) (o : option A) (a : A) :
  outcome (lift (ndarray := ndarray) (affine_t := affine_t) (gtab := gtab) e o)
  = inr a <-> o = Some a.
Proof. destruct o; simpl; split; congruence. Qed.

Lemma trace_lift {A : Type} (e : exn) (o : option A) :
  trace (lift (ndarray := ndarray) (affine_t := affine_t) (gtab := gtab) e o)
  = [].
Proof. destruct o; reflexivity. Qed.

Lemma in_trace_for_in {A S : Type} (xs : list A) (body : A -> S -> M S)
      (s : S) (ev : event) :
  In ev (trace (for_in xs body s)) ->
  exists x s', In x xs /\ In ev (trace (body x s')).
Proof.
  revert s. induction xs as [|x xs IH]; intros s; simpl for_in.
  - intros [].
  - rewrite in_trace_bind. intros [H | (s' & _ & H)].
    + exists x, s. split; [left; reflexivity | exact H].
    + destruct (IH s' H) as (y & s'' & Hy & Hev).
      exists y, s''. split; [right; exact Hy | exact Hev].
Qed.

Lemma bind_assoc {A B C : Type} (m : M A) (k : A -> M B) (h : B -> M C) :
  bind (bind m k) h = bind m (fun a => bind (k a) h).
Proof.
  destruct m as [t [e|a]]; simpl; [reflexivity|].
  destruct (k a) as [t' [e|b]]; simpl; [reflexivity|].
  destruct (h b) as [t'' r]. rewrite app_assoc. reflexivity.
Qed.

Lemma bind_ret {A B : Type} (a : A) (k : A -> M B) :
  bind (ret a) k = k a.
Proof. unfold bind, ret. destruct (k a) as [t r]. reflexivity. Qed.

Lemma trace_bind_emit {B : Type} (ev : event) (k : unit -> M B) :
  trace (bind (emit ev) k) = ev :: trace (k tt).
Proof. rewrite trace_bind. reflexivity. Qed.

Lemma trace_bind_lift {A B : Type} (e : exn) (o : option A) (a : A)
      (k : A -> M B) :
  o = Some a -> trace (bind (lift e o) k) = trace (k a).
Proof. intros ->. rewrite trace_bind. reflexivity. Qed.

End Monad_facts.

(** ** Reading a run backwards

    [exec_inv] takes apart every hypothesis that says an event occurred in a
    computation, or that a computation returned a value, one statement of
    the modelled code at a time. *)

Ltac exec_unfold :=
  unfold load, save, info, gradient_table, fit, attribute, str_format in *.

Ltac exec_step :=
  match goal with
  | H : In _ (trace (bind _ _)) |- _ =>
      apply in_trace_bind in H;
      destruct H as [H | (? & ? & H)]; cbv beta zeta in *
  | H : outcome (bind _ _) = inr _ |- _ =>
      apply outcome_bind_inr in H;
      destruct H as (? & ? & H); cbv beta zeta in *
  | H : In _ (trace (lift _ _)) |- _ =>
      rewrite trace_lift in H; destruct H
  | H : outcome (lift _ _) = inr _ |- _ =>
      apply outcome_lift_inr in H
  | H : In _ (trace (emit _)) |- _ =>
      destruct H as [H | []];
      first [discriminate H | injection H as H; subst | idtac]
  | H : outcome (emit _) = inr _ |- _ => clear H
  | H : In _ (trace (ret _)) |- _ => destruct H
  | H : In _ (trace (raise _)) |- _ => destruct H
  | H : outcome (ret _) = inr _ |- _ => injection H as H; subst
  | H : outcome (raise _) = inr _ |- _ => discriminate H
  | H : In _ (trace (for_in _ _ _)) |- _ =>
      apply in_trace_for_in in H; destruct H as (? & ? & ? & H)
  end.

Ltac exec_inv := exec_unfold; repeat exec_step.

(** ** The mask given to the fit *)

Section Mask_facts.

Context {ndarray affine_t gtab runtime : Type}.
Variable L : Library ndarray affine_t gtab.

Local Abbreviation event := (event ndarray affine_t gtab).

Lemma load_mask_outcome (self : InputSpec) (mask : option ndarray) :
  outcome (load_mask L self) = inr mask ->
  match mask_file self with
  | Some path =>
      exists img, nb_load L path = Some img /\ mask = Some (get_data img)
  | None => mask = None
  end.
Proof.
  unfold load_mask. destruct (mask_file self) as [path|]; intros H.
  - exec_inv. eauto.
  - exec_inv. reflexivity.
Qed.

Lemma load_mask_trace (self : InputSpec) (ev : event) :
  In ev (trace (load_mask L self)) ->
  exists path, mask_file self = Some path /\ ev = Load path.
Proof.
  unfold load_mask. destruct (mask_file self) as [path|]; intros H.
  - exec_inv. eauto.
  - exec_inv.
Qed.

(** The class bodies decide who can read [mask_file]: DTI and TensorMode
    bind specifications that declare it, DKI binds none. *)
Lemma inputs_mask_file_declared (a : adapter) (self : InputSpec) :
  a = DTI \/ a = TensorMode ->
  inputs_mask_file L a self = ret (mask_file self).
Proof. intros [-> | ->]; reflexivity. Qed.

Lemma inputs_mask_file_DKI (self : InputSpec) :
  inputs_mask_file L DKI self = raise (AttributeError "mask_file").
Proof.
  unfold inputs_mask_file, class_getattr.
  destruct (base_attr L "input_spec"); reflexivity.
Qed.

End Mask_facts.

Ltac run_step :=
  match goal with
  | H : context [inputs_mask_file _ DKI _] |- _ =>
      rewrite inputs_mask_file_DKI in H
  | H : In _ (trace (load_mask _ _)) |- _ =>
      apply load_mask_trace in H; destruct H as (? & ? & H);
      first [discriminate H | injection H as H; subst | idtac]
  | H : outcome (load_mask _ _) = inr _ |- _ =>
      apply load_mask_outcome in H
  | H : In _ (trace (DKI_metric_body _ _ _ _ _ _)) |- _ =>
      unfold DKI_metric_body in H; cbn [builtin_getattr] in H
  | H : In _ (trace (DTI_metric_body _ _ _ _ _ _)) |- _ =>
      unfold DTI_metric_body in H; cbn [builtin_getattr] in H
  end.

Ltac run_inv := repeat (exec_unfold; first [exec_step | run_step]).

Ltac in_list := repeat first [left; reflexivity | right].

(** Running forward: with the results of the library calls known, the trace
    of a computation is read off statement by statement. *)
Ltac trace_fwd :=
  repeat first
    [ rewrite bind_assoc
    | rewrite bind_ret
    | rewrite trace_bind_emit
    | erewrite trace_bind_lift by eassumption
    | progress cbv beta ].

Section Fit_mask.

Context {ndarray affine_t gtab runtime : Type}.
Variable L : Library ndarray affine_t gtab.

(** Where DTI calls the fit, what it passes comes from the statements
    before it: the gradient table, the data of the input image and the
    result of the [mask_file] test. *)
Lemma DTI_fit_call_arguments (self : InputSpec) (rt : runtime)
      (m : model) (g : gtab) (d : ndarray) (mask : option ndarray) :
  In (FitCall m g d mask) (trace (DTI_run_interface L self rt)) ->
  m = TensorModel /\
  _get_gradient_table L (base_inputs self) = Some g /\
  (exists img, nb_load L (in_file (base_inputs self)) = Some img /\
               d = get_data img) /\
  match mask_file self with
  | Some path =>
      exists img, nb_load L path = Some img /\ mask = Some (get_data img)
  | None => mask = None
  end.
Proof.
  intros H. unfold DTI_run_interface in H. run_inv. eauto 10.
Qed.

(** With [mask_file] set and readable, DTI opens the input image, then the
    mask file, and calls the fit with the volume loaded from the mask
    file. *)
Lemma DTI_passes_mask_file_volume (self : InputSpec) (rt : runtime)
      (g : gtab) (img mask_img : image ndarray affine_t) (path : string) :
  _get_gradient_table L (base_inputs self) = Some g ->
  nb_load L (in_file (base_inputs self)) = Some img ->
  mask_file self = Some path ->
  nb_load L path = Some mask_img ->
  exists rest,
    trace (DTI_run_interface L self rt)
    = Load (in_file (base_inputs self))
        :: Load path
        :: FitCall TensorModel g (get_data img) (Some (get_data mask_img))
        :: rest.
Proof.
  intros Hg Himg Hmask Hpath.
  unfold DTI_run_interface, gradient_table, load_mask, fit.
  rewrite Hmask. unfold load. trace_fwd. eexists. reflexivity.
Qed.

(** With [mask_file] unset, DTI opens the input image and calls the fit with
    [None] as the mask. *)
Lemma DTI_fits_without_mask_when_unset (self : InputSpec) (rt : runtime)
      (g : gtab) (img : image ndarray affine_t) :
  _get_gradient_table L (base_inputs self) = Some g ->
  nb_load L (in_file (base_inputs self)) = Some img ->
  mask_file self = None ->
  exists rest,
    trace (DTI_run_interface L self rt)
    = Load (in_file (base_inputs self))
        :: FitCall TensorModel g (get_data img) None
        :: rest.
Proof.
  intros Hg Himg Hmask.
  unfold DTI_run_interface, gradient_table, load_mask, fit.
  rewrite Hmask. unfold load. trace_fwd. eexists. reflexivity.
Qed.

(** C9, what the code does: DKI never calls the fit, with [mask_file] unset
    or otherwise.  Class DKI binds no [input_spec], so the test of line 54
    reads a trait that [self.inputs] does not have and raises. *)
Theorem DKI_never_calls_the_fit (self : InputSpec) (rt : runtime) :
  Forall (fun ev => match ev with
                    | FitCall _ _ _ _ => False
                    | _ => True
                    end)
         (trace (DKI_run_interface L self rt)).
Proof.
  apply List.Forall_forall. intros ev H.
  destruct ev as [|m g d mask| |]; try exact I.
  unfold DKI_run_interface in H. run_inv.
Qed.

(** C8: the mask TensorMode gives to the tensor fit is always
    [data[..., 0] > 50], computed from the input image; [mask_file] is never
    read, so that the run is the same whatever it holds, and the input
    image is the only file loaded. *)
Theorem TensorMode_mask_is_threshold
        (self : InputSpec) (rt : runtime)
        (m : model) (g : gtab) (d : ndarray) (mask : option ndarray) :
  In (FitCall m g d mask) (trace (TensorMode_run_interface L self rt)) ->
  (exists img first,
      nb_load L (in_file (base_inputs self)) = Some img /\
      d = get_data img /\
      index_last_axis L d 0 = Some first /\
      mask = Some (greater L first 50)) /\
  (forall other : option string,
      TensorMode_run_interface L
        {| base_inputs := base_inputs self; mask_file := other |} rt
      = TensorMode_run_interface L self rt) /\
  (forall path,
      In (Load path) (trace (TensorMode_run_interface L self rt)) ->
      path = in_file (base_inputs self)).
Proof.
  intros Hfit. split; [|split].
  - unfold TensorMode_run_interface in Hfit. run_inv. eauto 10.
  - intros other. reflexivity.
  - intros path Hload. clear Hfit.
    unfold TensorMode_run_interface in Hload. run_inv; reflexivity.
Qed.

End Fit_mask.


(** TensorMode does not honour [mask_file]: with it set to [mask.nii], the
    fit is called with the thresholded first volume and the mask file is
    not loaded. *)
Lemma TensorMode_ignores_mask_file :
  ~ mask_file_honoured (Sample.library None) TensorMode
      (Sample.inputs (Some "mask.nii")) tt.
Proof.
  intros H.
  destruct (H "mask.nii" TensorModel ("bvals", "bvecs") Sample.diffusion
              (Some (Sample.Mask3 [true; false; true])))
    as [Hload _].
  - reflexivity.
  - vm_compute. in_list.
  - vm_compute in Hload.
    repeat (destruct Hload as [Hload | Hload]; [discriminate Hload|]).
    exact Hload.
Qed.

(** C2, what the code does: with [mask_file] set to a readable mask,
    TensorMode opens the input image only and fits with the thresholded
    first volume; the volume in the mask file is another one. *)
Theorem TensorMode_fits_threshold_despite_mask_file :
  mask_file (Sample.inputs (Some "mask.nii")) = Some "mask.nii" /\
  nb_load (Sample.library None) "mask.nii"
  = Some (Nifti1Image Sample.white_matter 7%Z) /\
  TensorMode_run_interface (Sample.library None)
    (Sample.inputs (Some "mask.nii")) tt
  = ([Load "diffusion.nii";
      FitCall TensorModel ("bvals", "bvecs") Sample.diffusion
        (Some (Sample.Mask3 [true; false; true]));
      Save (Nifti1Image (Sample.Vol3 [4%Z]) 7%Z) "/data/mode_diffusion.nii";
      Info "Tensor mode image saved as /data/mode_diffusion.nii"],
     inr tt).
Proof. repeat split; vm_compute; reflexivity. Qed.

Lemma TensorMode_mask_is_threshold_witness :
  exists img first,
    nb_load (Sample.library None) "diffusion.nii" = Some img /\
    Sample.diffusion = get_data img /\
    index_last_axis (Sample.library None) Sample.diffusion 0 = Some first /\
    Some (Sample.Mask3 [true; false; true])
    = Some (greater (Sample.library None) first 50).
Proof.
  apply (TensorMode_mask_is_threshold (Sample.library None)
           (Sample.inputs (Some "mask.nii")) tt
           TensorModel ("bvals", "bvecs") Sample.diffusion
           (Some (Sample.Mask3 [true; false; true]))).
  vm_compute. in_list.
Defined.

(** ** What is written *)

Section Written_volumes.

Context {ndarray affine_t gtab runtime : Type}.
Variable L : Library ndarray affine_t gtab.

(** C6: every volume an adapter writes is constructed with the affine of
    the image loaded from [in_file]. *)
Theorem written_volumes_keep_input_affine
        (a : adapter) (self : InputSpec) (rt : runtime)
        (img : image ndarray affine_t) (path : string) :
  In (Save img path) (trace (run_interface L a self rt)) ->
  exists input,
    nb_load L (in_file (base_inputs self)) = Some input /\
    image_affine img = image_affine input.
Proof.
  intros H. destruct a; cbn [run_interface] in H;
    unfold DKI_run_interface, DTI_run_interface, TensorMode_run_interface in H;
    run_inv; eauto.
Qed.

(** C10: every per-metric volume written by DTI and DKI, that is every
    [Nifti1Image] they save, holds a metric attribute of the fitted model
    cast with [astype('float32')]. *)
Theorem metric_volumes_are_float32
        (a : adapter) (self : InputSpec) (rt : runtime)
        (data : ndarray) (affine : affine_t) (path : string) :
  a = DTI \/ a = DKI ->
  In (Save (Nifti1Image data affine) path) (trace (run_interface L a self rt)) ->
  exists g d mask f metric value,
    model_fit L (model_of a) g d mask = Some f /\
    In metric (metrics_of a) /\
    fit_attr f metric = Some value /\
    data = astype L value "float32" /\
    path = gen_filename L self metric.
Proof.
  intros [-> | ->] H; cbn [run_interface] in H;
    unfold DKI_run_interface, DTI_run_interface in H;
    run_inv; cbn [model_of metrics_of].
  eauto 12.
Qed.

End Written_volumes.

Lemma written_volumes_keep_input_affine_witness :
  exists input,
    nb_load (Sample.library None) "diffusion.nii" = Some input /\
    image_affine (Nifti1Image (Sample.Vol3 [4%Z]) 7%Z) = image_affine input.
Proof.
  apply (written_volumes_keep_input_affine (Sample.library None) TensorMode
           (Sample.inputs None) tt
           (Nifti1Image (Sample.Vol3 [4%Z]) 7%Z) "/data/mode_diffusion.nii").
  vm_compute. in_list.
Defined.

Lemma metric_volumes_are_float32_witness :
  exists g d mask f metric value,
    model_fit (Sample.library None) TensorModel g d mask = Some f /\
    In metric DTI_metrics /\
    fit_attr f metric = Some value /\
    Sample.Cast "float32" (Sample.Vol3 [2%Z])
    = astype (Sample.library None) value "float32" /\
    "/data/md_diffusion.nii"
    = gen_filename (Sample.library None) (Sample.inputs None) metric.
Proof.
  apply (metric_volumes_are_float32 (Sample.library None) DTI
           (Sample.inputs None) tt
           (Sample.Cast "float32" (Sample.Vol3 [2%Z])) 7%Z
           "/data/md_diffusion.nii").
  - left; reflexivity.
  - vm_compute. in_list.
Defined.

(** ** The DKI loop *)

Section DKI_loop.

Context {ndarray affine_t gtab runtime : Type}.
Variable L : Library ndarray affine_t gtab.

(** The first statement of the loop body raises: [AttributeError] when the
    fitted model has no attribute called [metric], and [TypeError] from the
    one-argument [getattr] otherwise. *)
Lemma DKI_metric_body_raises (self : InputSpec) (f : Fit ndarray)
      (affine : affine_t) (metric : string) (s : unit) :
  DKI_metric_body L self f affine metric s
  = match fit_attr f "metric" with
    | Some _ =>
        raise (TypeError "getattr expected at least 2 arguments, got 1")
    | None => raise (AttributeError "metric")
    end.
Proof.
  unfold DKI_metric_body, attribute.
  destruct (fit_attr f "metric"); reflexivity.
Qed.

Lemma DKI_loop_raises (self : InputSpec) (f : Fit ndarray) (affine : affine_t) :
  exists e,
    for_in DKI_metrics (DKI_metric_body L self f affine) tt
    = ([], inl e).
Proof.
  unfold DKI_metrics. cbn [for_in]. rewrite DKI_metric_body_raises.
  destruct (fit_attr f "metric"); eexists; reflexivity.
Qed.

(** The whole of a DKI run: it builds the gradient table, opens the input
    image, and raises at the [mask_file] test. *)
Lemma DKI_run_interface_eq (self : InputSpec) (rt : runtime) :
  DKI_run_interface L self rt
  = match _get_gradient_table L (base_inputs self) with
    | None => ([], inl (LibraryError "_get_gradient_table"))
    | Some _ =>
        match nb_load L (in_file (base_inputs self)) with
        | None =>
            ([Load (in_file (base_inputs self))],
             inl (LibraryError "nibabel.load"))
        | Some _ =>
            ([Load (in_file (base_inputs self))],
             inl (AttributeError "mask_file"))
        end
    end.
Proof.
  unfold DKI_run_interface. rewrite inputs_mask_file_DKI.
  unfold gradient_table, load.
  destruct (_get_gradient_table L (base_inputs self)); [|reflexivity].
  destruct (nb_load L (in_file (base_inputs self))); reflexivity.
Qed.

(** C1, what the code does: [DKI._run_interface] never completes and
    writes no per-metric volume.  Its run ends at the [mask_file] test of
    line 54 at the latest; the loop it does not reach would raise in its
    first round whatever the fit returned ([DKI_loop_raises]). *)
Theorem DKI_run_interface_always_raises (self : InputSpec) (rt : runtime) :
  (exists e, outcome (DKI_run_interface L self rt) = inl e) /\
  Forall (fun ev => match ev with
                    | Save (Nifti1Image _ _) _ => False
                    | _ => True
                    end)
         (trace (DKI_run_interface L self rt)).
Proof.
  split.
  - unfold DKI_run_interface.
    apply outcome_bind_inl; intros gtab0.
    apply outcome_bind_inl; intros img.
    rewrite inputs_mask_file_DKI. eexists. reflexivity.
  - apply List.Forall_forall. intros ev H.
    destruct ev as [| |img path|]; try exact I.
    destruct img as [data affine|]; [|exact I].
    unfold DKI_run_interface in H. run_inv.
Qed.

End DKI_loop.

(** On the sample inputs DKI opens the input image and stops at the
    [mask_file] test. *)
Example DKI_run_on_sample :
  DKI_run_interface (Sample.library None) (Sample.inputs None) tt
  = ([Load "diffusion.nii"], inl (AttributeError "mask_file")).
Proof. vm_compute. reflexivity. Qed.

Example DTI_run_on_sample :
  written_files
    (trace (DTI_run_interface (Sample.library None)
              (Sample.inputs (Some "mask.nii")) tt))
  = ["/data/dti_diffusion.nii"; "/data/fa_diffusion.nii";
     "/data/md_diffusion.nii"; "/data/rd_diffusion.nii";
     "/data/ad_diffusion.nii"] /\
  outcome (DTI_run_interface (Sample.library None)
             (Sample.inputs (Some "mask.nii")) tt)
  = inr tt.
Proof. split; vm_compute; reflexivity. Qed.

(** ** Class bindings *)

(** DTI and TensorMode bind the specifications written for them. *)
Lemma sibling_classes_bind_their_specifications
      (B : Type) (base : string -> option B) (a : adapter) :
  a = DTI \/ a = TensorMode ->
  class_getattr base a "input_spec" = Some (SpecClass (expected_input_spec a)) /\
  class_getattr base a "output_spec" = Some (SpecClass (expected_output_spec a)).
Proof. intros [-> | ->]; split; reflexivity. Qed.

(** C4, what the code does: the body of class DKI assigns neither
    [input_spec] nor [output_spec], so both names resolve to whatever the
    base class holds, which is never [DKIInputSpec] or [DKIOutputSpec]. *)
Theorem DKI_binds_no_specification (B : Type) (base : string -> option B) :
  @own_attr B DKI "input_spec" = None /\
  @own_attr B DKI "output_spec" = None /\
  class_getattr base DKI "input_spec" = Inherited <$> base "input_spec" /\
  class_getattr base DKI "output_spec" = Inherited <$> base "output_spec" /\
  (fun v => match v with
            | Some (SpecClass _) => true
            | _ => false
            end) <$> [class_getattr base DKI "input_spec";
                      class_getattr base DKI "output_spec"]
  = [false; false].
Proof.
  repeat split; try reflexivity.
  unfold class_getattr. cbn.
  destruct (base "input_spec"), (base "output_spec"); reflexivity.
Qed.

(** ** Output dictionaries *)

Section List_outputs.

Context {ndarray affine_t gtab : Type}.
Variable L : Library ndarray affine_t gtab.

Lemma DTI_list_outputs_eq (self : InputSpec) :
  DTI_list_outputs L self
  = ret (<["ad_file" := Filename (gen_filename L self "ad")]>
         (<["rd_file" := Filename (gen_filename L self "rd")]>
          (<["md_file" := Filename (gen_filename L self "md")]>
           (<["fa_file" := Filename (gen_filename L self "fa")]>
            (<["out_file" := Filename (gen_filename L self "dti")]>
             (fresh_traits (declared_traits DTIOutputSpec))))))).
Proof. reflexivity. Qed.

Lemma TensorMode_list_outputs_eq (self : InputSpec) :
  TensorMode_list_outputs L self
  = ret (<["out_file" := Filename (gen_filename L self "mode")]>
         (fresh_traits (declared_traits TensorModeOutputSpec))).
Proof. reflexivity. Qed.

(** The keys DKI assigns are the bare metric names. *)
Lemma DKI_list_outputs_eq (self : InputSpec) :
  DKI_list_outputs L self
  = match base_outputs L with
    | Some outputs =>
        ret (<["rk" := Filename (gen_filename L self "rk")]>
             (<["ak" := Filename (gen_filename L self "ak")]>
              (<["mk" := Filename (gen_filename L self "mk")]>
               (<["ad" := Filename (gen_filename L self "ad")]>
                (<["rd" := Filename (gen_filename L self "rd")]>
                 (<["md" := Filename (gen_filename L self "md")]>
                  (<["fa" := Filename (gen_filename L self "fa")]>
                   (<["out_file" := Filename (gen_filename L self "dki")]>
                    outputs))))))))
    | None => raise (AttributeError "get")
    end.
Proof.
  unfold DKI_list_outputs, outputs_get, class_getattr.
  destruct (base_attr L "output_spec"), (base_outputs L); reflexivity.
Qed.

(** DTI and TensorMode fill every slot their output specification
    declares. *)
Lemma sibling_list_outputs_name_every_slot (a : adapter) (self : InputSpec) :
  a = DTI \/ a = TensorMode -> every_slot_named L a self.
Proof.
  intros [-> | ->]; unfold every_slot_named; cbn [list_outputs].
  - rewrite DTI_list_outputs_eq. eexists. split; [reflexivity|].
    intros slot Hslot. cbn in Hslot.
    repeat (destruct Hslot as [<- | Hslot];
            [eexists; vm_compute; reflexivity|]).
    destruct Hslot.
  - rewrite TensorMode_list_outputs_eq. eexists. split; [reflexivity|].
    intros slot Hslot. cbn in Hslot.
    repeat (destruct Hslot as [<- | Hslot];
            [eexists; vm_compute; reflexivity|]).
    destruct Hslot.
Qed.

(** [DKI._list_outputs] leaves every [*_file] slot of the metrics as it
    found it. *)
Lemma DKI_list_outputs_skips_metric_slots
      (self : InputSpec) (before after : gmap string trait_value)
      (slot : string) :
  base_outputs L = Some before ->
  outcome (DKI_list_outputs L self) = inr after ->
  In slot ["fa_file"; "md_file"; "rd_file"; "ad_file";
           "mk_file"; "ak_file"; "rk_file"] ->
  after !! slot = before !! slot.
Proof.
  intros Hbase Hout Hslot. rewrite DKI_list_outputs_eq, Hbase in Hout.
  injection Hout as <-.
  cbn in Hslot.
  repeat (destruct Hslot as [<- | Hslot];
          [rewrite !lookup_insert_ne by discriminate; reflexivity|]).
  destruct Hslot.
Qed.

End List_outputs.


(** C3, what the code does: even when [DKI._list_outputs] starts from a
    fresh [DKIOutputSpec] dictionary, it returns it with the seven
    [*_file] slots of the metrics still undefined; the file names are stored
    under the keys [fa], [md], [rd], [ad], [mk], [ak] and [rk]. *)
Theorem DKI_list_outputs_leaves_slots_undefined :
  exists outputs,
    outcome (DKI_list_outputs
               (Sample.library
                  (Some (fresh_traits (declared_traits DKIOutputSpec))))
               (Sample.inputs None))
    = inr outputs /\
    (fun slot => outputs !! slot) <$> declared_traits DKIOutputSpec
    = [Some (Filename "/data/dki_diffusion.nii");
       Some Undefined; Some Undefined; Some Undefined; Some Undefined;
       Some Undefined; Some Undefined; Some Undefined] /\
    (fun key => outputs !! key) <$> DKI_metrics
    = [Some (Filename "/data/fa_diffusion.nii");
       Some (Filename "/data/md_diffusion.nii");
       Some (Filename "/data/rd_diffusion.nii");
       Some (Filename "/data/ad_diffusion.nii");
       Some (Filename "/data/mk_diffusion.nii");
       Some (Filename "/data/ak_diffusion.nii");
       Some (Filename "/data/rk_diffusion.nii")].
Proof.
  eexists. split; [reflexivity|].
  split; vm_compute; reflexivity.
Qed.


(** ** Log messages *)

Lemma append_assoc (s1 s2 s3 : string) :
  String.append s1 (String.append s2 s3)
  = String.append (String.append s1 s2) s3.
Proof.
  induction s1 as [|c s1 IH]; [reflexivity|].
  change (String c (String.append s1 (String.append s2 s3))
          = String c (String.append (String.append s1 s2) s3)).
  congruence.
Qed.

Lemma format_parameters_message (path : string) :
  PyStr.format "DTI parameters image saved as {i}" [] [("i", path)]
  = Some (String.append "DTI parameters image saved as "
            (String.append path EmptyString)) /\
  PyStr.format "Tensor mode image saved as {i}" [] [("i", path)]
  = Some (String.append "Tensor mode image saved as "
            (String.append path EmptyString)).
Proof. split; reflexivity. Qed.

Lemma format_metric_message (metric path : string) :
  PyStr.format "DTI {metric} image saved as {i}" []
    [("i", path); ("metric", metric)]
  = Some (String.append "DTI "
            (String.append metric
               (String.append " image saved as "
                  (String.append path EmptyString)))).
Proof. reflexivity. Qed.

Section Log_facts.

Context {ndarray affine_t gtab runtime : Type}.
Variable L : Library ndarray affine_t gtab.

Local Abbreviation event := (event ndarray affine_t gtab).
Local Abbreviation M := (M ndarray affine_t gtab).

Lemma all_reported_app (t1 t2 : list event) :
  all_reported t1 = true -> all_reported t2 = true ->
  all_reported (t1 ++ t2) = true.
Proof.
  unfold all_reported, reported, written_files, log_messages.
  rewrite !forallb_forall. intros H1 H2 path.
  rewrite !flat_map_app, in_app_iff, existsb_app.
  intros [H | H]; [rewrite (H1 _ H) | rewrite (H2 _ H)];
    auto using orb_true_r.
Qed.

Lemma all_reported_bind {A B : Type} (m : M A) (k : A -> M B) :
  all_reported (trace m) = true ->
  (forall a, all_reported (trace (k a)) = true) ->
  all_reported (trace (bind m k)) = true.
Proof.
  intros Hm Hk. rewrite trace_bind. apply all_reported_app; [exact Hm|].
  destruct (outcome m); [reflexivity | apply Hk].
Qed.

Lemma all_reported_for_in {A S : Type} (xs : list A) (body : A -> S -> M S)
      (s : S) :
  (forall x s', all_reported (trace (body x s')) = true) ->
  all_reported (trace (for_in xs body s)) = true.
Proof.
  intros Hbody. revert s.
  induction xs as [|x xs IH]; intros s; cbn [for_in].
  - reflexivity.
  - apply all_reported_bind; [apply Hbody | exact IH].
Qed.

Lemma all_reported_save (img : image ndarray affine_t) (path msg : string)
      (t : list event) :
  PyStr.contains path msg = true ->
  all_reported t = true ->
  all_reported (Save img path :: Info msg :: t) = true.
Proof.
  intros Hmsg Ht.
  change (Save img path :: Info msg :: t)
    with ([Save img path; Info msg] ++ t)%list.
  apply all_reported_app; [|exact Ht].
  unfold all_reported, reported. cbn. rewrite Hmsg. reflexivity.
Qed.

Lemma all_reported_skip (ev : event) (t : list event) :
  written_files [ev] = [] ->
  all_reported t = true ->
  all_reported (ev :: t) = true.
Proof.
  intros Hev Ht. change (ev :: t) with ([ev] ++ t)%list.
  apply all_reported_app; [|exact Ht].
  unfold all_reported. rewrite Hev. reflexivity.
Qed.

Lemma all_reported_load_mask (self : InputSpec) :
  all_reported (trace (load_mask L self)) = true.
Proof.
  unfold load_mask, load. destruct (mask_file self) as [path|].
  - rewrite !bind_assoc, trace_bind_emit.
    apply all_reported_skip; [reflexivity|].
    apply all_reported_bind; [rewrite trace_lift|]; reflexivity.
  - reflexivity.
Qed.

Lemma all_reported_DTI_metric_body (self : InputSpec) (f : Fit ndarray)
      (affine : affine_t) (metric : string) (s : unit) :
  all_reported (trace (DTI_metric_body L self f affine metric s)) = true.
Proof.
  unfold DTI_metric_body. cbn [builtin_getattr]. unfold attribute.
  apply all_reported_bind; [rewrite trace_lift; reflexivity|]. intros value.
  unfold save, str_format, info. rewrite trace_bind_emit.
  rewrite (trace_bind_lift _ _ _ _ (format_metric_message _ _)).
  apply all_reported_save; [|reflexivity].
  rewrite (append_assoc "DTI " metric),
    (append_assoc (String.append "DTI " metric)).
  apply contains_append.
Qed.

(** DTI and TensorMode report every file they write. *)
Lemma sibling_runs_report_every_file (a : adapter) (self : InputSpec)
      (rt : runtime) :
  a = DTI \/ a = TensorMode ->
  all_reported (trace (run_interface L a self rt)) = true.
Proof.
  intros [-> | ->]; cbn [run_interface].
  - unfold DTI_run_interface, gradient_table, load, fit.
    apply all_reported_bind; [rewrite trace_lift; reflexivity|]. intros g.
    rewrite !bind_assoc, trace_bind_emit.
    apply all_reported_skip; [reflexivity|].
    apply all_reported_bind; [rewrite trace_lift; reflexivity|]. intros img.
    apply all_reported_bind; [apply all_reported_load_mask|]. intros mask.
    rewrite !bind_assoc, trace_bind_emit.
    apply all_reported_skip; [reflexivity|].
    apply all_reported_bind; [rewrite trace_lift; reflexivity|]. intros f.
    unfold save, str_format, info. rewrite trace_bind_emit.
    rewrite (trace_bind_lift _ _ _ _
               (proj1 (format_parameters_message _))).
    rewrite trace_bind_emit.
    apply all_reported_save; [apply contains_append|].
    apply all_reported_bind; [|reflexivity].
    apply all_reported_for_in. intros x s.
    apply all_reported_DTI_metric_body.
  - unfold TensorMode_run_interface, gradient_table, load, fit, attribute.
    rewrite !bind_assoc, trace_bind_emit.
    apply all_reported_skip; [reflexivity|].
    apply all_reported_bind; [rewrite trace_lift; reflexivity|]. intros img.
    apply all_reported_bind; [rewrite trace_lift; reflexivity|]. intros g.
    apply all_reported_bind; [rewrite trace_lift; reflexivity|]. intros first.
    rewrite !bind_assoc, trace_bind_emit.
    apply all_reported_skip; [reflexivity|].
    apply all_reported_bind; [rewrite trace_lift; reflexivity|]. intros f.
    apply all_reported_bind; [rewrite trace_lift; reflexivity|]. intros mode.
    unfold save, str_format, info. rewrite trace_bind_emit.
    rewrite (trace_bind_lift _ _ _ _
               (proj2 (format_parameters_message _))).
    rewrite trace_bind_emit.
    apply all_reported_save; [apply contains_append|reflexivity].
Qed.

(** C5: every adapter names, in a message it logs, each file it writes.
    DTI and TensorMode log the generated name after each write; DKI never
    gets to write a file. *)
Theorem every_written_file_is_reported
        (a : adapter) (self : InputSpec) (rt : runtime) :
  all_reported (trace (run_interface L a self rt)) = true.
Proof.
  destruct a.
  - cbn [run_interface]. rewrite DKI_run_interface_eq.
    destruct (_get_gradient_table L (base_inputs self)); [|reflexivity].
    destruct (nb_load L (in_file (base_inputs self))); reflexivity.
  - apply sibling_runs_report_every_file. left; reflexivity.
  - apply sibling_runs_report_every_file. right; reflexivity.
Qed.

End Log_facts.

Lemma every_written_file_is_reported_witness :
  written_files
    (trace (run_interface (Sample.library None) DTI
              (Sample.inputs (Some "mask.nii")) tt))
  = ["/data/dti_diffusion.nii"; "/data/fa_diffusion.nii";
     "/data/md_diffusion.nii"; "/data/rd_diffusion.nii";
     "/data/ad_diffusion.nii"] /\
  all_reported
    (trace (run_interface (Sample.library None) DTI
              (Sample.inputs (Some "mask.nii")) tt))
  = true.
Proof.
  split; [vm_compute; reflexivity|].
  apply (every_written_file_is_reported (Sample.library None) DTI
           (Sample.inputs (Some "mask.nii")) tt).
Defined.

(** ** File names listed and file names written *)

Section Listed_and_written.

Context {ndarray affine_t gtab runtime : Type}.
Variable L : Library ndarray affine_t gtab.

Local Abbreviation event := (event ndarray affine_t gtab).

Lemma in_written_files (t : list event) (path : string) :
  In path (written_files t) <-> exists img, In (Save img path) t.
Proof.
  unfold written_files. rewrite in_flat_map. split.
  - intros ([| |img p|] & Hev & Hp); cbn in Hp; try tauto.
    destruct Hp as [<- | []]. eauto.
  - intros (img & H). exists (Save img path). split; [exact H | left; reflexivity].
Qed.


End Listed_and_written.




(** * Further properties of the adapters *)

Lemma append_empty_r (s : string) : String.append s EmptyString = s.
Proof.
  induction s as [|c s IH]; [reflexivity|].
  change (String c (String.append s EmptyString) = String c s).
  congruence.
Qed.

Section Whole_computations.

Context {ndarray affine_t gtab : Type}.

Local Abbreviation M := (M ndarray affine_t gtab).
Local Abbreviation event := (event ndarray affine_t gtab).

Lemma bind_emit {B : Type} (ev : event) (k : unit -> M B) :
  bind (emit ev) k = (ev :: trace (k tt), outcome (k tt)).
Proof. unfold bind, emit. destruct (k tt) as [t r]. reflexivity. Qed.

Lemma bind_lift_some {A B : Type} (e : exn) (o : option A) (a : A)
      (k : A -> M B) :
  o = Some a -> bind (lift e o) k = k a.
Proof. intros ->. apply bind_ret. Qed.

Lemma bind_lift_none {A B : Type} (e : exn) (o : option A) (k : A -> M B) :
  o = None -> bind (lift e o) k = ([], inl e).
Proof. intros ->. reflexivity. Qed.

Lemma trace_bind_known {A B : Type} (m : M A) (k : A -> M B) (a : A) :
  outcome m = inr a -> trace (bind m k) = (trace m ++ trace (k a))%list.
Proof. intros H. rewrite trace_bind, H. reflexivity. Qed.

Lemma outcome_bind_known {A B : Type} (m : M A) (k : A -> M B) (a : A) :
  outcome m = inr a -> outcome (bind m k) = outcome (k a).
Proof. intros H. rewrite outcome_bind, H. reflexivity. Qed.

End Whole_computations.

(** ** The DTI loop, round by round *)

Section DTI_loop.

Context {ndarray affine_t gtab runtime : Type}.
Variable L : Library ndarray affine_t gtab.

Lemma DTI_metric_body_present (self : InputSpec) (f : Fit ndarray)
      (affine : affine_t) (metric : string) (s : unit) (value : ndarray) :
  fit_attr f metric = Some value ->
  DTI_metric_body L self f affine metric s
  = ([Save (Nifti1Image (astype L value "float32") affine)
           (gen_filename L self metric);
      Info (String.append "DTI "
              (String.append metric
                 (String.append " image saved as "
                    (gen_filename L self metric))))],
     inr tt).
Proof.
  intros H. unfold DTI_metric_body. cbn [builtin_getattr].
  unfold attribute, save, str_format, info.
  rewrite (bind_lift_some _ _ _ _ H), bind_emit.
  rewrite (bind_lift_some _ _ _ _ (format_metric_message _ _)).
  rewrite append_empty_r. reflexivity.
Qed.

Lemma DTI_metric_body_missing (self : InputSpec) (f : Fit ndarray)
      (affine : affine_t) (metric : string) (s : unit) :
  fit_attr f metric = None ->
  DTI_metric_body L self f affine metric s
  = ([], inl (AttributeError metric)).
Proof.
  intros H. unfold DTI_metric_body. cbn [builtin_getattr].
  unfold attribute. apply bind_lift_none. exact H.
Qed.

(** A loop over names of which [missing] is the first one the fitted model
    lacks: the rounds before it write their files, that round raises. *)
Lemma DTI_loop_stops_at_missing (self : InputSpec) (f : Fit ndarray)
      (affine : affine_t) (done rest : list string) (missing : string) :
  Forall (fun metric => is_Some (fit_attr f metric)) done ->
  fit_attr f missing = None ->
  outcome (for_in (done ++ missing :: rest)%list
             (DTI_metric_body L self f affine) tt)
  = inl (AttributeError missing) /\
  written_files (trace (for_in (done ++ missing :: rest)%list
                          (DTI_metric_body L self f affine) tt))
  = gen_filename L self <$> done.
Proof.
  intros Hdone Hmissing.
  induction Hdone as [|metric done [value Hvalue] _ IH]; cbn [app for_in].
  - rewrite (DTI_metric_body_missing _ _ _ _ _ Hmissing). split; reflexivity.
  - rewrite (DTI_metric_body_present _ _ _ _ _ _ Hvalue).
    destruct IH as [IHo IHt]. split.
    + rewrite outcome_bind. exact IHo.
    + rewrite trace_bind. cbn [outcome snd trace fst].
      unfold written_files in *. rewrite flat_map_app, IHt. reflexivity.
Qed.

End DTI_loop.

(** ** Completed and interrupted runs *)

Ltac format_inv :=
  repeat match goal with
    | H : PyStr.format "DTI parameters image saved as {i}" _ _ = Some _ |- _ =>
        rewrite (proj1 (format_parameters_message _)) in H;
        injection H as <-
    | H : PyStr.format "Tensor mode image saved as {i}" _ _ = Some _ |- _ =>
        rewrite (proj2 (format_parameters_message _)) in H;
        injection H as <-
    | H : PyStr.format "DTI {metric} image saved as {i}" _ _ = Some _ |- _ =>
        rewrite format_metric_message in H;
        injection H as <-
    end.

Section Runs.

Context {ndarray affine_t gtab runtime : Type}.
Variable L : Library ndarray affine_t gtab.

Local Abbreviation event := (event ndarray affine_t gtab).

Lemma load_mask_writes_nothing (self : InputSpec) :
  written_files (trace (load_mask L self)) = [] /\
  log_messages (trace (load_mask L self)) = [].
Proof.
  unfold load_mask, load. destruct (mask_file self) as [path|].
  - rewrite !bind_assoc, trace_bind_emit, trace_bind, trace_lift.
    destruct (outcome _); split; reflexivity.
  - split; reflexivity.
Qed.

(** A DTI run that completes returns the runtime object it was given, has
    written the tensor parameters file and the four metric files, in this
    order, and has logged one message for each of them. *)
Theorem completed_DTI_run_writes_five_files
        (self : InputSpec) (rt rt' : runtime) :
  outcome (DTI_run_interface L self rt) = inr rt' ->
  rt' = rt /\
  written_files (trace (DTI_run_interface L self rt))
  = gen_filename L self <$> ["dti"; "fa"; "md"; "rd"; "ad"] /\
  log_messages (trace (DTI_run_interface L self rt))
  = [String.append "DTI parameters image saved as " (gen_filename L self "dti");
     String.append "DTI fa image saved as " (gen_filename L self "fa");
     String.append "DTI md image saved as " (gen_filename L self "md");
     String.append "DTI rd image saved as " (gen_filename L self "rd");
     String.append "DTI ad image saved as " (gen_filename L self "ad")].
Proof.
  intros Hrun.
  unfold DTI_run_interface in *. unfold DTI_metrics in *.
  cbn [for_in] in *. unfold DTI_metric_body in *.
  cbn [builtin_getattr] in *. run_inv.
  split; [reflexivity|].
  pose proof (load_mask_writes_nothing self) as [Hw Hl].
  assert (Hmask : outcome (load_mask L self) = inr x1).
  { unfold load_mask, load. destruct (mask_file self) as [path|].
    - destruct H1 as (mimg & Hmimg & ->).
      rewrite !bind_assoc, outcome_bind.
      cbn [outcome emit snd]. cbv beta.
      rewrite (bind_lift_some _ _ _ _ Hmimg). reflexivity.
    - subst. reflexivity. }
  trace_fwd.
  rewrite (trace_bind_known _ _ _ Hmask).
  trace_fwd. format_inv.
  unfold written_files, log_messages in *.
  cbn [flat_map app]. rewrite !flat_map_app, Hw, Hl.
  rewrite !append_empty_r. split; reflexivity.
Qed.

(** A TensorMode run that completes returns the runtime object it was
    given, has written the single file named after [mode] and has logged one
    message naming it. *)
Theorem completed_TensorMode_run_writes_one_file
        (self : InputSpec) (rt rt' : runtime) :
  outcome (TensorMode_run_interface L self rt) = inr rt' ->
  rt' = rt /\
  written_files (trace (TensorMode_run_interface L self rt))
  = [gen_filename L self "mode"] /\
  log_messages (trace (TensorMode_run_interface L self rt))
  = [String.append "Tensor mode image saved as " (gen_filename L self "mode")].
Proof.
  intros Hrun. unfold TensorMode_run_interface in *. run_inv.
  split; [reflexivity|].
  trace_fwd. format_inv. rewrite append_empty_r. split; reflexivity.
Qed.

(** DTI is not all-or-nothing: when the fitted model lacks one of the
    metric attributes, the run ends with the [AttributeError] for that
    name, and the parameters file and the files of the metrics before it
    have been written. *)
Theorem DTI_missing_metric_leaves_partial_output
        (self : InputSpec) (rt : runtime) (g : gtab)
        (img : image ndarray affine_t) (mask : option ndarray)
        (f : Fit ndarray) (done rest : list string) (missing : string) :
  _get_gradient_table L (base_inputs self) = Some g ->
  nb_load L (in_file (base_inputs self)) = Some img ->
  outcome (load_mask L self) = inr mask ->
  model_fit L TensorModel g (get_data img) mask = Some f ->
  DTI_metrics = (done ++ missing :: rest)%list ->
  Forall (fun metric => is_Some (fit_attr f metric)) done ->
  fit_attr f missing = None ->
  outcome (DTI_run_interface L self rt) = inl (AttributeError missing) /\
  written_files (trace (DTI_run_interface L self rt))
  = gen_filename L self <$> ("dti" :: done).
Proof.
  intros Hg Himg Hmask Hfit Hmetrics Hdone Hmissing.
  destruct (DTI_loop_stops_at_missing L self f (image_affine img)
              done rest missing Hdone Hmissing) as [Ho Ht].
  pose proof (load_mask_writes_nothing self) as [Hw _].
  unfold DTI_run_interface, gradient_table, load, fit, save, str_format, info.
  rewrite Hmetrics. split.
  - rewrite (bind_lift_some _ _ _ _ Hg).
    rewrite !bind_assoc, outcome_bind. cbn [outcome emit snd]. cbv beta.
    rewrite (bind_lift_some _ _ _ _ Himg).
    rewrite (outcome_bind_known _ _ _ Hmask).
    rewrite !bind_assoc, outcome_bind. cbn [outcome emit snd]. cbv beta.
    rewrite (bind_lift_some _ _ _ _ Hfit).
    rewrite outcome_bind. cbn [outcome emit snd]. cbv beta.
    rewrite (bind_lift_some _ _ _ _ (proj1 (format_parameters_message _))).
    rewrite outcome_bind. cbn [outcome emit snd]. cbv beta.
    rewrite outcome_bind.
    change (snd (for_in (done ++ missing :: rest)
                   (DTI_metric_body L self f (image_affine img)) tt))
      with (outcome (for_in (done ++ missing :: rest)
                       (DTI_metric_body L self f (image_affine img)) tt)).
    rewrite Ho. reflexivity.
  - rewrite (bind_lift_some _ _ _ _ Hg).
    rewrite !bind_assoc, trace_bind_emit.
    rewrite (bind_lift_some _ _ _ _ Himg).
    rewrite (trace_bind_known _ _ _ Hmask).
    rewrite !bind_assoc, trace_bind_emit.
    rewrite (bind_lift_some _ _ _ _ Hfit).
    rewrite trace_bind_emit.
    rewrite (bind_lift_some _ _ _ _ (proj1 (format_parameters_message _))).
    rewrite trace_bind_emit, trace_bind, Ho, app_nil_r.
    unfold written_files in *.
    cbn [flat_map app]. rewrite flat_map_app, Hw. cbn [flat_map app].
    rewrite Ht. reflexivity.
Qed.

(** With the gradient table built and the input image loaded, a DKI run
    ends at the [mask_file] test of line 54 with an [AttributeError]: the
    input image is the only file opened, and nothing has been fitted,
    written or logged. *)
Theorem DKI_stops_at_mask_file_test
        (self : InputSpec) (rt : runtime) (g : gtab)
        (img : image ndarray affine_t) :
  _get_gradient_table L (base_inputs self) = Some g ->
  nb_load L (in_file (base_inputs self)) = Some img ->
  DKI_run_interface L self rt
  = ([Load (in_file (base_inputs self))], inl (AttributeError "mask_file")).
Proof.
  intros Hg Himg. rewrite DKI_run_interface_eq, Hg, Himg. reflexivity.
Qed.

End Runs.

(** ** What each effect presupposes *)

Section Preconditions_of_effects.

Context {ndarray affine_t gtab runtime : Type}.
Variable L : Library ndarray affine_t gtab.

Local Abbreviation event := (event ndarray affine_t gtab).


(** Whenever an adapter calls the fit, it is the fit of that adapter's
    model, on the gradient table of the inputs and on the data of the image
    loaded from [in_file]. *)
Theorem fit_called_on_input_data
        (a : adapter) (self : InputSpec) (rt : runtime)
        (m : model) (g : gtab) (d : ndarray) (mask : option ndarray) :
  In (FitCall m g d mask) (trace (run_interface L a self rt)) ->
  m = model_of a /\
  _get_gradient_table L (base_inputs self) = Some g /\
  exists img,
    nb_load L (in_file (base_inputs self)) = Some img /\ d = get_data img.
Proof.
  intros H. destruct a; cbn [run_interface] in H;
    unfold DKI_run_interface, DTI_run_interface, TensorMode_run_interface in H;
    run_inv; cbn [model_of]; eauto 10.
Qed.

(** The one volume TensorMode writes is the [mode] attribute of the fitted
    tensors as the library returned it, without a cast, under the name
    generated for [mode]. *)
Theorem TensorMode_writes_mode_attribute
        (self : InputSpec) (rt : runtime)
        (img : image ndarray affine_t) (path : string) :
  In (Save img path) (trace (TensorMode_run_interface L self rt)) ->
  exists input g mask f mode_data,
    nb_load L (in_file (base_inputs self)) = Some input /\
    model_fit L TensorModel g (get_data input) mask = Some f /\
    fit_attr f "mode" = Some mode_data /\
    img = Nifti1Image mode_data (image_affine input) /\
    path = gen_filename L self "mode".
Proof.
  intros H. unfold TensorMode_run_interface in H. run_inv.
  unfold get_affine. eauto 12.
Qed.


(** DTI and DKI build the gradient table first: when that raises, they have
    not read any image, called any fit, written or logged anything. *)
Theorem DTI_and_DKI_start_with_gradient_table
        (a : adapter) (self : InputSpec) (rt : runtime) (ev : event) :
  a = DTI \/ a = DKI ->
  In ev (trace (run_interface L a self rt)) ->
  exists g, _get_gradient_table L (base_inputs self) = Some g.
Proof.
  intros [-> | ->] H; cbn [run_interface] in H;
    unfold DKI_run_interface, DTI_run_interface in H.
  - unfold gradient_table in H. apply in_trace_bind in H.
    destruct H as [H | (g & Hg & _)].
    + rewrite trace_lift in H. destruct H.
    + apply outcome_lift_inr in Hg. eauto.
  - unfold gradient_table in H. apply in_trace_bind in H.
    destruct H as [H | (g & Hg & _)].
    + rewrite trace_lift in H. destruct H.
    + apply outcome_lift_inr in Hg. eauto.
Qed.

(** TensorMode reads the input image before anything else, whatever
    happens afterwards. *)
Theorem TensorMode_starts_with_input_image (self : InputSpec) (rt : runtime) :
  exists rest,
    trace (TensorMode_run_interface L self rt)
    = Load (in_file (base_inputs self)) :: rest.
Proof.
  unfold TensorMode_run_interface, load.
  rewrite !bind_assoc, trace_bind_emit. eexists. reflexivity.
Qed.

End Preconditions_of_effects.

(** ** The dictionaries of [_list_outputs] *)

Section Output_dictionaries.

Context {ndarray affine_t gtab : Type}.
Variable L : Library ndarray affine_t gtab.

(** [_list_outputs] of DTI and of TensorMode has no effect and never
    raises; the dictionary it returns has the declared slots as its keys, no
    other key, and holds under each of them the name generated for the
    corresponding output. *)
Theorem sibling_list_outputs_has_exactly_declared_slots
        (a : adapter) (self : InputSpec) :
  a = DTI \/ a = TensorMode ->
  exists outputs : gmap string trait_value,
    list_outputs L a self = ([], inr outputs) /\
    dom outputs
    = (list_to_set (declared_traits (expected_output_spec a)) : gset string) /\
    (fun slot => outputs !! slot) <$> declared_traits (expected_output_spec a)
    = (fun name => Some (Filename (gen_filename L self name)))
        <$> (main_output_name a :: metrics_of a).
Proof.
  intros [-> | ->]; cbn [list_outputs].
  - rewrite DTI_list_outputs_eq. eexists. split; [reflexivity|]. split.
    + rewrite !dom_insert_L. unfold fresh_traits.
      rewrite dom_list_to_map_L. vm_compute. reflexivity.
    + vm_compute. reflexivity.
  - rewrite TensorMode_list_outputs_eq. eexists. split; [reflexivity|]. split.
    + rewrite !dom_insert_L. unfold fresh_traits.
      rewrite dom_list_to_map_L. vm_compute. reflexivity.
    + vm_compute. reflexivity.
Qed.

(** [DKI._list_outputs] works on the dictionary the base class hands it:
    it raises when there is none, and otherwise returns that dictionary with
    [out_file] and the seven bare metric names as additional keys, each
    holding its generated name. *)
Theorem DKI_list_outputs_adds_bare_metric_keys (self : InputSpec) :
  match base_outputs L with
  | Some before =>
      exists after : gmap string trait_value,
        DKI_list_outputs L self = ([], inr after) /\
        dom after
        = (list_to_set ("out_file" :: DKI_metrics) ∪ dom before : gset string) /\
        (fun key => after !! key) <$> ("out_file" :: DKI_metrics)
        = (fun name => Some (Filename (gen_filename L self name)))
            <$> ("dki" :: DKI_metrics)
  | None => DKI_list_outputs L self = ([], inl (AttributeError "get"))
  end.
Proof.
  rewrite DKI_list_outputs_eq.
  destruct (base_outputs L) as [before|]; [|reflexivity].
  eexists. split; [reflexivity|]. split.
  - rewrite !dom_insert_L. cbn [DKI_metrics list_to_set foldr].
    apply set_eq. intros key.
    rewrite !elem_of_union, !elem_of_singleton, elem_of_empty. tauto.
  - cbn [fmap list_fmap DKI_metrics].
    repeat (rewrite lookup_insert_eq
            || (rewrite lookup_insert_ne by discriminate)).
    reflexivity.
Qed.

End Output_dictionaries.

(** ** Messages and the files they name *)

Section Messages.

Context {ndarray affine_t gtab runtime : Type}.
Variable L : Library ndarray affine_t gtab.

Local Abbreviation event := (event ndarray affine_t gtab).
Local Abbreviation M := (M ndarray affine_t gtab).

Lemma follow_writes_app (seen : list string) (t1 t2 : list event) :
  messages_follow_writes seen t1 = true ->
  (forall seen', messages_follow_writes seen' t2 = true) ->
  messages_follow_writes seen (t1 ++ t2) = true.
Proof.
  intros H1 H2. revert seen H1.
  induction t1 as [|ev t1 IH]; intros seen H1; cbn [app].
  - apply H2.
  - destruct ev as [p|m g d mask|img p|msg]; cbn [messages_follow_writes] in *.
    + apply IH, H1.
    + apply IH, H1.
    + apply IH, H1.
    + apply andb_true_iff in H1 as [Hmsg H1].
      rewrite Hmsg. apply IH, H1.
Qed.

Lemma follow_writes_bind {A B : Type} (m : M A) (k : A -> M B) :
  (forall seen, messages_follow_writes seen (trace m) = true) ->
  (forall a seen, messages_follow_writes seen (trace (k a)) = true) ->
  forall seen, messages_follow_writes seen (trace (bind m k)) = true.
Proof.
  intros Hm Hk seen. rewrite trace_bind. apply follow_writes_app; [apply Hm|].
  intros seen'. destruct (outcome m); [reflexivity | apply Hk].
Qed.

Lemma follow_writes_for_in {A S : Type} (xs : list A) (body : A -> S -> M S)
      (s : S) :
  (forall x s' seen, messages_follow_writes seen (trace (body x s')) = true) ->
  forall seen, messages_follow_writes seen (trace (for_in xs body s)) = true.
Proof.
  intros Hbody. revert s.
  induction xs as [|x xs IH]; intros s; cbn [for_in].
  - reflexivity.
  - apply follow_writes_bind; [apply Hbody | exact IH].
Qed.

Lemma follow_writes_save (img : image ndarray affine_t) (path msg : string)
      (t : list event) :
  PyStr.contains path msg = true ->
  (forall seen, messages_follow_writes seen t = true) ->
  forall seen,
    messages_follow_writes seen (Save img path :: Info msg :: t) = true.
Proof.
  intros Hmsg Ht seen. cbn [messages_follow_writes existsb].
  rewrite Hmsg, Ht. reflexivity.
Qed.

Lemma follow_writes_lift {A : Type} (e : exn) (o : option A) :
  forall seen,
    messages_follow_writes seen
      (trace (lift (ndarray := ndarray) (affine_t := affine_t) (gtab := gtab)
                e o))
    = true.
Proof. intros seen. rewrite trace_lift. reflexivity. Qed.

Lemma follow_writes_load_mask (self : InputSpec) :
  forall seen, messages_follow_writes seen (trace (load_mask L self)) = true.
Proof.
  intros seen. unfold load_mask, load. destruct (mask_file self) as [path|].
  - rewrite !bind_assoc, trace_bind_emit. cbn [messages_follow_writes].
    revert seen. apply follow_writes_bind; [apply follow_writes_lift|].
    reflexivity.
  - reflexivity.
Qed.

Lemma follow_writes_DTI_metric_body (self : InputSpec) (f : Fit ndarray)
      (affine : affine_t) (metric : string) (s : unit) :
  forall seen,
    messages_follow_writes seen
      (trace (DTI_metric_body L self f affine metric s))
    = true.
Proof.
  destruct (fit_attr f metric) as [value|] eqn:Hattr.
  - rewrite (DTI_metric_body_present L _ _ _ _ _ _ Hattr).
    apply follow_writes_save; [|reflexivity].
    rewrite (append_assoc "DTI " metric),
      (append_assoc (String.append "DTI " metric)).
    rewrite <- (append_empty_r (gen_filename L self metric)) at 2.
    apply contains_append.
  - rewrite (DTI_metric_body_missing L _ _ _ _ _ Hattr). reflexivity.
Qed.

(** DTI and TensorMode never announce a file they have not written: walking
    through a run in order, every message logged contains the name of a
    file written before it in that run, also when the run is cut short by
    an exception. *)
Theorem sibling_messages_follow_writes
        (a : adapter) (self : InputSpec) (rt : runtime) :
  a = DTI \/ a = TensorMode ->
  messages_follow_writes [] (trace (run_interface L a self rt)) = true.
Proof.
  intros Ha. generalize (@nil string) as seen. revert Ha.
  intros [-> | ->]; cbn [run_interface].
  - unfold DTI_run_interface, gradient_table, load, fit.
    apply follow_writes_bind; [apply follow_writes_lift|]. intros g seen.
    rewrite !bind_assoc, trace_bind_emit. cbn [messages_follow_writes].
    revert seen.
    apply follow_writes_bind; [apply follow_writes_lift|]. intros img.
    apply follow_writes_bind; [apply follow_writes_load_mask|].
    intros mask seen.
    rewrite !bind_assoc, trace_bind_emit. cbn [messages_follow_writes].
    revert seen.
    apply follow_writes_bind; [apply follow_writes_lift|]. intros f seen.
    unfold save, str_format, info. rewrite trace_bind_emit.
    rewrite (trace_bind_lift _ _ _ _ (proj1 (format_parameters_message _))).
    rewrite trace_bind_emit. revert seen.
    apply follow_writes_save; [apply contains_append|].
    apply follow_writes_bind; [|reflexivity].
    apply follow_writes_for_in. intros x s.
    apply follow_writes_DTI_metric_body.
  - unfold TensorMode_run_interface, gradient_table, load, fit, attribute.
    intros seen.
    rewrite !bind_assoc, trace_bind_emit. cbn [messages_follow_writes].
    revert seen.
    apply follow_writes_bind; [apply follow_writes_lift|]. intros img.
    apply follow_writes_bind; [apply follow_writes_lift|]. intros g.
    apply follow_writes_bind; [apply follow_writes_lift|]. intros first seen.
    rewrite !bind_assoc, trace_bind_emit. cbn [messages_follow_writes].
    revert seen.
    apply follow_writes_bind; [apply follow_writes_lift|]. intros f.
    apply follow_writes_bind; [apply follow_writes_lift|]. intros mode seen.
    unfold save, str_format, info. rewrite trace_bind_emit.
    rewrite (trace_bind_lift _ _ _ _ (proj2 (format_parameters_message _))).
    rewrite trace_bind_emit. revert seen.
    apply follow_writes_save; [apply contains_append|reflexivity].
Qed.

(** A mask file that cannot be loaded stops DTI before the fit: the input
    image and the mask file have been opened, the exception of the load is
    the outcome, and nothing has been fitted, written or logged. *)
Theorem unloadable_mask_stops_before_fit
        (self : InputSpec) (rt : runtime) (g : gtab)
        (img : image ndarray affine_t) (path : string) :
  _get_gradient_table L (base_inputs self) = Some g ->
  nb_load L (in_file (base_inputs self)) = Some img ->
  mask_file self = Some path ->
  nb_load L path = None ->
  DTI_run_interface L self rt
  = ([Load (in_file (base_inputs self)); Load path],
     inl (LibraryError "nibabel.load")).
Proof.
  intros Hg Himg Hmask Hpath.
  unfold DTI_run_interface, gradient_table, load_mask.
  rewrite Hmask. unfold load.
  rewrite (bind_lift_some _ _ _ _ Hg).
  rewrite !bind_assoc, bind_emit.
  rewrite (bind_lift_some _ _ _ _ Himg).
  rewrite !bind_assoc, bind_emit.
  rewrite (bind_lift_none _ _ _ Hpath). reflexivity.
Qed.

End Messages.

(** The check is on the order of events: a message that comes before the
    write it names does not pass. *)
Example message_before_write_is_refused :
  messages_follow_writes []
    [@Info Sample.volume Z (string * string) "saved as /d/x_fa.nii";
     Save (Nifti1Image (Sample.Vol3 [1%Z]) 7%Z) "/d/x_fa.nii"]
  = false /\
  messages_follow_writes []
    [@Save Sample.volume Z (string * string)
       (Nifti1Image (Sample.Vol3 [1%Z]) 7%Z) "/d/x_fa.nii";
     Info "saved as /d/x_fa.nii"]
  = true.
Proof. split; reflexivity. Qed.

(** ** The further properties on the sample inputs *)

Lemma completed_DTI_run_writes_five_files_witness :
  written_files
    (trace (DTI_run_interface (Sample.library None)
              (Sample.inputs (Some "mask.nii")) tt))
  = gen_filename (Sample.library None) (Sample.inputs (Some "mask.nii"))
      <$> ["dti"; "fa"; "md"; "rd"; "ad"].
Proof.
  apply (completed_DTI_run_writes_five_files (Sample.library None)
           (Sample.inputs (Some "mask.nii")) tt tt).
  vm_compute. reflexivity.
Defined.

Lemma completed_TensorMode_run_writes_one_file_witness :
  written_files
    (trace (TensorMode_run_interface (Sample.library None)
              (Sample.inputs None) tt))
  = [gen_filename (Sample.library None) (Sample.inputs None) "mode"].
Proof.
  apply (completed_TensorMode_run_writes_one_file (Sample.library None)
           (Sample.inputs None) tt tt).
  vm_compute. reflexivity.
Defined.

Lemma DTI_missing_metric_leaves_partial_output_witness :
  outcome (DTI_run_interface (Sample.library_lacking "md")
             (Sample.inputs None) tt)
  = inl (AttributeError "md") /\
  written_files
    (trace (DTI_run_interface (Sample.library_lacking "md")
              (Sample.inputs None) tt))
  = ["/data/dti_diffusion.nii"; "/data/fa_diffusion.nii"].
Proof.
  destruct (Sample.sample_fit_lacking "md" TensorModel ("bvals", "bvecs")
              Sample.diffusion None) as [f|] eqn:Hfit; [|discriminate Hfit].
  injection Hfit as Hf.
  apply (DTI_missing_metric_leaves_partial_output
           (Sample.library_lacking "md") (Sample.inputs None) tt
           ("bvals", "bvecs") (Nifti1Image Sample.diffusion 7%Z) None
           f ["fa"] ["rd"; "ad"] "md").
  - reflexivity.
  - reflexivity.
  - reflexivity.
  - rewrite <- Hf. reflexivity.
  - reflexivity.
  - rewrite <- Hf. repeat constructor. eexists. reflexivity.
  - rewrite <- Hf. reflexivity.
Defined.

Lemma DKI_stops_at_mask_file_test_witness :
  DKI_run_interface (Sample.library None) (Sample.inputs (Some "mask.nii")) tt
  = ([Load "diffusion.nii"], inl (AttributeError "mask_file")).
Proof.
  apply (DKI_stops_at_mask_file_test (Sample.library None)
           (Sample.inputs (Some "mask.nii")) tt ("bvals", "bvecs")
           (Nifti1Image Sample.diffusion 7%Z)).
  - reflexivity.
  - reflexivity.
Defined.


Lemma fit_called_on_input_data_witness :
  TensorModel = model_of TensorMode /\
  _get_gradient_table (Sample.library None) (base_inputs (Sample.inputs None))
  = Some ("bvals", "bvecs") /\
  exists img,
    nb_load (Sample.library None) (in_file (base_inputs (Sample.inputs None)))
    = Some img /\
    Sample.diffusion = get_data img.
Proof.
  apply (fit_called_on_input_data (Sample.library None) TensorMode
           (Sample.inputs None) tt TensorModel ("bvals", "bvecs")
           Sample.diffusion (Some (Sample.Mask3 [true; false; true]))).
  vm_compute. in_list.
Defined.

Lemma TensorMode_writes_mode_attribute_witness :
  exists input g mask f mode_data,
    nb_load (Sample.library None) (in_file (base_inputs (Sample.inputs None)))
    = Some input /\
    model_fit (Sample.library None) TensorModel g (get_data input) mask
    = Some f /\
    fit_attr f "mode" = Some mode_data /\
    Nifti1Image (Sample.Vol3 [4%Z]) 7%Z
    = Nifti1Image mode_data (image_affine input) /\
    "/data/mode_diffusion.nii"
    = gen_filename (Sample.library None) (Sample.inputs None) "mode".
Proof.
  apply (TensorMode_writes_mode_attribute (Sample.library None)
           (Sample.inputs None) tt).
  vm_compute. in_list.
Defined.


Lemma DTI_and_DKI_start_with_gradient_table_witness :
  exists g,
    _get_gradient_table (Sample.library None) (base_inputs (Sample.inputs None))
    = Some g.
Proof.
  apply (DTI_and_DKI_start_with_gradient_table (Sample.library None) DKI
           (Sample.inputs None) tt (Load "diffusion.nii")).
  - right; reflexivity.
  - vm_compute. in_list.
Defined.

Lemma sibling_list_outputs_has_exactly_declared_slots_witness :
  exists outputs : gmap string trait_value,
    list_outputs (Sample.library None) TensorMode (Sample.inputs None)
    = ([], inr outputs) /\
    dom outputs
    = (list_to_set (declared_traits (expected_output_spec TensorMode))
       : gset string) /\
    (fun slot => outputs !! slot)
      <$> declared_traits (expected_output_spec TensorMode)
    = (fun name =>
         Some (Filename (gen_filename (Sample.library None)
                           (Sample.inputs None) name)))
        <$> (main_output_name TensorMode :: metrics_of TensorMode).
Proof.
  apply (sibling_list_outputs_has_exactly_declared_slots
           (Sample.library None) TensorMode (Sample.inputs None)).
  right; reflexivity.
Defined.

Lemma sibling_messages_follow_writes_witness :
  messages_follow_writes []
    (trace (run_interface (Sample.library None) DTI (Sample.inputs None) tt))
  = true.
Proof.
  apply (sibling_messages_follow_writes (Sample.library None) DTI
           (Sample.inputs None) tt).
  left; reflexivity.
Defined.

Lemma unloadable_mask_stops_before_fit_witness :
  DTI_run_interface (Sample.library None) (Sample.inputs (Some "absent.nii")) tt
  = ([Load "diffusion.nii"; Load "absent.nii"],
     inl (LibraryError "nibabel.load")).
Proof.
  apply (unloadable_mask_stops_before_fit (Sample.library None)
           (Sample.inputs (Some "absent.nii")) tt ("bvals", "bvecs")
           (Nifti1Image Sample.diffusion 7%Z) "absent.nii").
  - reflexivity.
  - reflexivity.
  - reflexivity.
  - reflexivity.
Defined.
